(** * Session-streaming client of the Financial Advisor agent

    A shallow embedding of the two clients of the remote agent engine:
    the Streamlit front-end ([streamlit_app.py]) and the command-line
    client ([use_agent.py]).  The stream fragments are JSON-decoded Python
    values, so the dynamic operations the clients apply to them ([in],
    subscripting, iteration, [+=] on [str]) are modelled with the
    exceptions Python raises. *)

From Stdlib Require Import String Ascii ZArith List Bool Lia.
From stdpp Require Import base option list strings gmap.

Local Open Scope string_scope.
Local Open Scope list_scope.

(** ** Python values and the dynamic operations used by the clients *)

Module Py.

(** JSON-decoded values: what a stream fragment can be.  Numbers are
    kept as integers; the clients never compute with them. *)
#[warnings="-register-all"] Inductive value : Type :=
| VNone
| VBool (b : bool)
| VInt (n : Z)
| VStr (s : string)
| VList (items : list value)
| VDict (items : list (string * value)).

(** Exceptions.  [RemoteError] stands for whatever the agent engine
    raises (connection loss, unknown resource, transport timeout),
    [ValueError] for an argument a library call refuses. *)
Inductive exn : Type :=
| TypeError
| KeyError (key : value)
| ValueError (what : string)
| RemoteError (what : string).

(** Result of running a piece of the script.  [Rerun] is the control
    exception of [st.rerun()]: it stops the script run and is not an
    [Exception]. *)
Inductive outcome (A : Type) : Type :=
| Ok (a : A)
| Raise (e : exn)
| Rerun.
Arguments Ok {A} a.
Arguments Raise {A} e.
Arguments Rerun {A}.

Definition of_sum {A} (r : exn + A) : outcome A :=
  match r with inl e => Raise e | inr a => Ok a end.

Definition isinstance_dict (v : value) : bool :=
  match v with VDict _ => true | _ => false end.

Definition isinstance_str (v : value) : bool :=
  match v with VStr _ => true | _ => false end.

(** [needle in hay] on two [str]: substring test. *)
Fixpoint str_contains (needle hay : string) : bool :=
  String.prefix needle hay ||
  match hay with
  | EmptyString => false
  | String _ hay' => str_contains needle hay'
  end.

Fixpoint dict_get (k : string) (items : list (string * value)) : option value :=
  match items with
  | [] => None
  | (k', v) :: rest => if String.eqb k k' then Some v else dict_get k rest
  end.

Definition str_eq_value (k : string) (v : value) : bool :=
  match v with VStr s => String.eqb k s | _ => false end.

(** [k in v] for a [str] key [k]. *)
Definition py_in (k : string) (v : value) : outcome bool :=
  match v with
  | VDict items => Ok (bool_decide (is_Some (dict_get k items)))
  | VStr s => Ok (str_contains k s)
  | VList items => Ok (existsb (str_eq_value k) items)
  | VNone | VBool _ | VInt _ => Raise TypeError
  end.

(** [v[k]] for a [str] key [k]. *)
Definition py_getitem (v : value) (k : string) : outcome value :=
  match v with
  | VDict items =>
      match dict_get k items with
      | Some x => Ok x
      | None => Raise (KeyError (VStr k))
      end
  | _ => Raise TypeError
  end.

Fixpoint chars (s : string) : list value :=
  match s with
  | EmptyString => []
  | String c s' => VStr (String c EmptyString) :: chars s'
  end.

(** Truth value of a [str]. *)
Definition str_truthy (s : string) : bool :=
  match s with EmptyString => false | _ => true end.

(** [for x in v]: the items the loop visits. *)
Definition py_iter (v : value) : outcome (list value) :=
  match v with
  | VList items => Ok items
  | VDict items => Ok (map (fun kv => VStr (fst kv)) items)
  | VStr s => Ok (chars s)
  | VNone | VBool _ | VInt _ => Raise TypeError
  end.

(** [acc += v] on a [str] accumulator. *)
Definition str_iadd (acc : string) (v : value) : outcome string :=
  match v with
  | VStr s => Ok (acc +:+ s)
  | _ => Raise TypeError
  end.

End Py.
Export Py.

(** ** Effects: a log of observable calls, threaded with exceptions

    The log keeps the calls to the engine, what is rendered or printed
    for the user, and the appends to a history.  The [print] calls of the
    Streamlit script write to the server console only and are left out. *)

Record message := Message { role : string; content : string }.

Record session_obj := SessionObj { sess_id : string; sess_state : value }.

Inductive event : Type :=
| ui_info (text : string)
| ui_markdown (text : string)
| placeholder_markdown (text : string)
| stdout (v : value)
| stdout_error (context : string) (e : exn)
| call_create_session (user : string)
| call_stream_query (msg user : string) (session : option string)
| call_get_session (session : option string) (user : string)
| history_append (key : option string) (m : message).

(** A computation that logs events and may raise: the log is kept when
    an exception is raised, the local value is not. *)
Definition logged (A : Type) : Type := list event * outcome A.

Definition lret {A} (a : A) : logged A := ([], Ok a).
Definition lemit (e : event) : logged unit := ([e], Ok tt).
Definition lift_outcome {A} (r : outcome A) : logged A := ([], r).

Definition lbind {A B} (m : logged A) (f : A -> logged B) : logged B :=
  match m with
  | (l, Ok a) => let (l', r) := f a in (l ++ l', r)
  | (l, Raise e) => (l, Raise e)
  | (l, Rerun) => (l, Rerun)
  end.

Declare Scope logged_scope.
Delimit Scope logged_scope with logged.
Notation "x <- m ;; k" := (lbind m (fun x => k))
  (at level 20, m at level 99, k at level 200, only parsing) : logged_scope.
Notation "'do' m ;; k" := (lbind m (fun _ => k))
  (at level 20, m at level 99, k at level 200, only parsing) : logged_scope.

(** A finished asynchronous stream seen from its single consumer: the
    fragments it yielded, then either exhaustion or the exception raised
    by the next iteration step. *)
Record stream := Stream { yielded : list value; ending : option exn }.

(** ** The response loop of [streamlit_app.get_response_and_session] *)

Module Aggregator.

Local Open Scope logged_scope.

(** The block cursor appended while streaming (U+258C). *)
Definition cursor : string := "▌".

(** Lines 171-174: the parts of one structured chunk. *)
Fixpoint parts_loop (parts : list value) (acc : string) : logged string :=
  match parts with
  | [] => lret acc
  | part :: rest =>
      has_text <- lift_outcome (py_in "text" part) ;;
      if has_text then
        t <- lift_outcome (py_getitem part "text") ;;
        acc' <- lift_outcome (str_iadd acc t) ;;
        do lemit (placeholder_markdown (acc' +:+ cursor)) ;;
        parts_loop rest acc'
      else parts_loop rest acc
  end.

(** Lines 176-178, and the fall-through when neither branch applies. *)
Definition on_other_chunk (chunk : value) (acc : string) : logged string :=
  match chunk with
  | VStr s =>
      let acc' := acc +:+ s in
      do lemit (placeholder_markdown (acc' +:+ cursor)) ;; lret acc'
  | _ => lret acc
  end.

(** Lines 170-178: one iteration of the [async for] body.  The
    condition is a short-circuit [and] of three tests. *)
Definition on_chunk (chunk : value) (acc : string) : logged string :=
  if isinstance_dict chunk then
    has_content <- lift_outcome (py_in "content" chunk) ;;
    if has_content then
      c <- lift_outcome (py_getitem chunk "content") ;;
      has_parts <- lift_outcome (py_in "parts" c) ;;
      if has_parts then
        c' <- lift_outcome (py_getitem chunk "content") ;;
        ps <- lift_outcome (py_getitem c' "parts") ;;
        items <- lift_outcome (py_iter ps) ;;
        parts_loop items acc
      else on_other_chunk chunk acc
    else on_other_chunk chunk acc
  else on_other_chunk chunk acc.

(** Lines 167-178 over the fragments the stream yields. *)
Fixpoint chunks_loop (chunks : list value) (acc : string) : logged string :=
  match chunks with
  | [] => lret acc
  | chunk :: rest => acc' <- on_chunk chunk acc ;; chunks_loop rest acc'
  end.

(** Lines 159-179: consume the whole stream, then render the final
    text without the cursor. *)
Definition stream_loop (s : stream) : logged string :=
  full <- chunks_loop (yielded s) "" ;;
  match ending s with
  | Some e => lift_outcome (Raise e)
  | None => do lemit (placeholder_markdown full) ;; lret full
  end.

End Aggregator.

(** ** The remote agent engine

    The engine is a remote, stateful service.  [W] is the state of the
    world it lives in; every call threads it.  The three operations are
    those of [vertexai.agent_engines]: a session object is a JSON document
    with a string field [id]. *)

Record agent_engine (W : Type) := AgentEngine {
  create_session : string -> W -> W * (exn + session_obj);
  async_stream_query : string -> string -> option string -> W -> W * stream;
  async_get_session : option string -> string -> W -> W * (exn + session_obj)
}.
Arguments create_session {W} _ _ _.
Arguments async_stream_query {W} _ _ _ _ _.
Arguments async_get_session {W} _ _ _ _.

(** ** [st.session_state] of the Streamlit front-end (lines 86-93) *)

Record session_state := SessionState {
  session_id : option string;
  sessions : list session_obj;
  messages : gmap (option string) (list message);
  user_id : string
}.

Definition set_session_id (v : option string) (st : session_state) :=
  {| session_id := v; sessions := sessions st;
     messages := messages st; user_id := user_id st |}.

Definition set_sessions (v : list session_obj) (st : session_state) :=
  {| session_id := session_id st; sessions := v;
     messages := messages st; user_id := user_id st |}.

Definition set_messages (v : gmap (option string) (list message))
    (st : session_state) :=
  {| session_id := session_id st; sessions := sessions st;
     messages := v; user_id := user_id st |}.

Definition initial_state (uid : string) : session_state :=
  {| session_id := None; sessions := []; messages := ∅; user_id := uid |}.

(** The key of [st.session_state.messages] as a Python value. *)
Definition key_value (k : option string) : value :=
  match k with Some s => VStr s | None => VNone end.

(** [not st.session_state.session_id] is true for [None] and for [""]. *)
Definition id_truthy (k : option string) : bool :=
  match k with Some s => str_truthy s | None => false end.

(** Widget values of one script run. *)
Record widgets := Widgets {
  new_chat : bool;
  session_selector : option string;
  chat_input : option string
}.

Definition no_input : widgets :=
  {| new_chat := false; session_selector := None; chat_input := None |}.

Module Streamlit.
Section WithAgent.

Context {W : Type} (agent : agent_engine W).

(** Script code: it reads and writes the session state, calls the
    engine, logs events, and may raise.  State changes made before an
    exception stay. *)
Definition app (A : Type) : Type :=
  W * session_state -> (W * session_state) * logged A.

Definition ret {A} (a : A) : app A := fun s => (s, lret a).

Definition bind {A B} (m : app A) (f : A -> app B) : app B :=
  fun s =>
    match m s with
    | (s1, (l1, Ok a)) =>
        match f a s1 with (s2, (l2, r)) => (s2, (l1 ++ l2, r)) end
    | (s1, (l1, Raise e)) => (s1, (l1, Raise e))
    | (s1, (l1, Rerun)) => (s1, (l1, Rerun))
    end.

Definition emit (e : event) : app unit := fun s => (s, lemit e).
Definition lift {A} (m : logged A) : app A := fun s => (s, m).
Definition raise {A} (e : exn) : app A := fun s => (s, ([], Raise e)).
Definition rerun {A} : app A := fun s => (s, ([], Rerun)).
Definition get_state : app session_state := fun s => (s, lret (snd s)).
Definition modify (f : session_state -> session_state) : app unit :=
  fun s => ((fst s, f (snd s)), lret tt).

Declare Scope app_scope.
Delimit Scope app_scope with app.
Notation "x <- m ;; k" := (bind m (fun x => k))
  (at level 20, m at level 99, k at level 200, only parsing) : app_scope.
Notation "'do' m ;; k" := (bind m (fun _ => k))
  (at level 20, m at level 99, k at level 200, only parsing) : app_scope.
Local Open Scope app_scope.

(** *** Calls to the engine *)

Definition agent_create_session (uid : string) : app session_obj :=
  fun s =>
    let (w', r) := create_session agent uid (fst s) in
    ((w', snd s), ([call_create_session uid], of_sum r)).

Definition agent_stream_query (msg uid : string) (sid : option string)
    : app stream :=
  fun s =>
    let (w', r) := async_stream_query agent msg uid sid (fst s) in
    ((w', snd s), ([call_stream_query msg uid sid], Ok r)).

Definition agent_get_session (sid : option string) (uid : string)
    : app session_obj :=
  fun s =>
    let (w', r) := async_get_session agent sid uid (fst s) in
    ((w', snd s), ([call_get_session sid uid], of_sum r)).

(** *** [create_new_session] (lines 75-83) *)

Definition create_new_session : app unit :=
  do emit (ui_info "Creating a new session...") ;;
  st <- get_state ;;
  new_session_obj <- agent_create_session (user_id st) ;;
  do modify (set_session_id (Some (sess_id new_session_obj))) ;;
  do modify (fun st => set_sessions (sessions st ++ [new_session_obj]) st) ;;
  modify (fun st => set_messages (<[session_id st := []]> (messages st)) st).

(** *** The sidebar (lines 97-126) *)

(** [session_options.index(session_id)], 0 when it raises. *)
Fixpoint index_of (sid : option string) (options : list string) : option nat :=
  match options with
  | [] => None
  | o :: rest =>
      if bool_decide (Some o = sid) then Some 0
      else S <$> index_of sid rest
  end.

(** Lines 124-126. *)
Definition select_session (selected_session_id : string) : app unit :=
  st <- get_state ;;
  if str_truthy selected_session_id
     && negb (bool_decide (Some selected_session_id = session_id st))
  then do modify (set_session_id (Some selected_session_id)) ;; rerun
  else ret tt.

Definition sidebar (w : widgets) : app unit :=
  do (if new_chat w then do create_new_session ;; rerun else ret tt) ;;
  st <- get_state ;;
  match sessions st with
  | [] => ret tt
  | _ =>
      let session_options := map sess_id (sessions st) in
      let current_session_index :=
        default 0 (index_of (session_id st) session_options) in
      let selected_session_id :=
        match session_selector w with
        | Some choice => choice
        | None => nth current_session_index session_options ""
        end in
      select_session selected_session_id
  end.

(** *** The chat handler (lines 143-206) *)

(** Lines 157-188. *)
Definition get_response_and_session (prompt : string)
    : app (string * session_obj) :=
  st <- get_state ;;
  response_stream <-
    agent_stream_query prompt (user_id st) (session_id st) ;;
  full_response_content <- lift (Aggregator.stream_loop response_stream) ;;
  st <- get_state ;;
  updated_session <- agent_get_session (session_id st) (user_id st) ;;
  ret (full_response_content, updated_session).

(** Lines 148-150: [messages.setdefault(session_id, []).append(...)]. *)
Definition append_user_turn (prompt : string) : app unit :=
  st <- get_state ;;
  let key := session_id st in
  let m := {| role := "user"; content := prompt |} in
  do modify (set_messages
               (<[key := default [] (messages st !! key) ++ [m]]> (messages st))) ;;
  emit (history_append key m).

(** Lines 195-197: [messages[session_id].append(...)]. *)
Definition append_assistant_turn (full_response : string) : app unit :=
  st <- get_state ;;
  let key := session_id st in
  let m := {| role := "assistant"; content := full_response |} in
  match messages st !! key with
  | None => raise (KeyError (key_value key))
  | Some history =>
      do modify (set_messages (<[key := history ++ [m]]> (messages st))) ;;
      emit (history_append key m)
  end.

(** Lines 200-203: replace the first entry carrying the active id. *)
Fixpoint replace_session (ss : list session_obj) (sid : option string)
    (updated_session_obj : session_obj) : list session_obj :=
  match ss with
  | [] => []
  | s :: rest =>
      if bool_decide (Some (sess_id s) = sid)
      then updated_session_obj :: rest
      else s :: replace_session rest sid updated_session_obj
  end.

Definition update_session_list (updated_session_obj : session_obj)
    : app unit :=
  modify (fun st =>
    set_sessions
      (replace_session (sessions st) (session_id st) updated_session_obj) st).

Definition handle_prompt (prompt : string) : app unit :=
  do emit (ui_markdown prompt) ;;
  do append_user_turn prompt ;;
  r <- get_response_and_session prompt ;;
  do append_assistant_turn (fst r) ;;
  do update_session_list (snd r) ;;
  rerun.

(** *** One run of the script, top to bottom

    Lines 208-225 only render the history and the session object of the
    active session; they change nothing and are not part of [script]:
    [chat_tab], [state_tab] and [shown_tabs] below give what they show. *)

Definition script (w : widgets) : app unit :=
  do sidebar w ;;
  st <- get_state ;;
  do (if id_truthy (session_id st) then ret tt
      else do create_new_session ;; rerun) ;;
  match chat_input w with
  | Some prompt =>
      if str_truthy prompt then handle_prompt prompt else ret tt
  | None => ret tt
  end.

(** Successive runs: the session state and the world persist, each
    run has its own widget values and its own log. *)
Fixpoint runs (ws : list widgets) (s : W * session_state)
    : (W * session_state) * list event :=
  match ws with
  | [] => (s, [])
  | w :: rest =>
      match script w s with
      | (s1, (l1, _)) =>
          match runs rest s1 with (s2, l2) => (s2, l1 ++ l2) end
      end
  end.

End WithAgent.
End Streamlit.

(** ** The command-line client [use_agent.main], from step 4 on

    Steps 0-3 read the environment and look the engine up; they end
    with the handle [remote_agent] and the user id used below. *)

Module UseAgent.
Section WithAgent.

Context {W : Type} (remote_agent : agent_engine W).

Local Open Scope logged_scope.

(** Lines 75-77. *)
Fixpoint print_parts (parts : list value) : logged unit :=
  match parts with
  | [] => lret tt
  | part :: rest =>
      has_text <- lift_outcome (py_in "text" part) ;;
      if has_text then
        t <- lift_outcome (py_getitem part "text") ;;
        do lemit (stdout t) ;;
        print_parts rest
      else print_parts rest
  end.

(** Lines 78-79. *)
Definition on_other_event (ev : value) : logged unit :=
  if isinstance_str ev then lemit (stdout ev) else lret tt.

(** Lines 74-79: there is no [isinstance(event, dict)] test here. *)
Definition on_event (ev : value) : logged unit :=
  has_content <- lift_outcome (py_in "content" ev) ;;
  if has_content then
    c <- lift_outcome (py_getitem ev "content") ;;
    has_parts <- lift_outcome (py_in "parts" c) ;;
    if has_parts then
      c' <- lift_outcome (py_getitem ev "content") ;;
      ps <- lift_outcome (py_getitem c' "parts") ;;
      items <- lift_outcome (py_iter ps) ;;
      print_parts items
    else on_other_event ev
  else on_other_event ev.

Fixpoint events_loop (evs : list value) : logged unit :=
  match evs with
  | [] => lret tt
  | ev :: rest => do on_event ev ;; events_loop rest
  end.

(** [try: ... except Exception as e: handler(e)]. *)
Definition try_except {A} (body : logged A) (handler : exn -> logged A)
    : logged A :=
  match body with
  | (l, Raise e) => let (l', r) := handler e in (l ++ l', r)
  | other => other
  end.

(** Lines 66-84. *)
Definition stream_block (s : stream) : logged unit :=
  try_except
    (do events_loop (yielded s) ;;
     do match ending s with
        | Some e => lift_outcome (Raise e)
        | None => lret tt
        end ;;
     lemit (stdout (VStr "

--- Stream Completed ---")))
    (fun e => lemit (stdout_error "
Error during streaming query: " e)).

(** Lines 49-84. *)
Definition main_from_session (user_id user_query : string) (w : W)
    : W * logged unit :=
  match create_session remote_agent user_id w with
  | (w1, inl e) =>
      (w1, ([call_create_session user_id;
             stdout_error "Error creating session: " e], Ok tt))
  | (w1, inr session) =>
      let session_id := sess_id session in
      let banner :=
        [call_create_session user_id;
         stdout (VStr ("Created session: " +:+ session_id
                       +:+ " for user: " +:+ user_id));
         stdout (VStr ("
--- User Query ---
" +:+ user_query));
         stdout (VStr "
--- Agent Response (Streaming...) ---
");
         call_stream_query user_query user_id (Some session_id)] in
      match async_stream_query remote_agent user_query user_id
              (Some session_id) w1 with
      | (w2, s) =>
          let (l, r) := stream_block s in (w2, (banner ++ l, r))
      end
  end.

End WithAgent.
End UseAgent.

(** ** Fragment shapes of the engine's stream

    A text event is a dictionary whose ["content"] is a dictionary whose
    ["parts"] is a list of dictionaries, each with an optional string
    field ["text"]; other keys are free.  A raw fragment is a string. *)

Definition part_ok (p : value) : bool :=
  match p with
  | VDict items =>
      match dict_get "text" items with
      | None | Some (VStr _) => true
      | Some _ => false
      end
  | _ => false
  end.


Definition event_parts (v : value) : option (list value) :=
  match v with
  | VDict items =>
      match dict_get "content" items with
      | Some (VDict content) =>
          match dict_get "parts" content with
          | Some (VList parts) => Some parts
          | _ => None
          end
      | _ => None
      end
  | _ => None
  end.


(** Fragments that are neither a text event nor a raw string and that
    the Streamlit loop steps over: anything that is not a dictionary or
    a string, a dictionary without ["content"], and a dictionary whose
    ["content"] is a dictionary without ["parts"]. *)
Definition unknown_kind (v : value) : bool :=
  match v with
  | VStr _ => false
  | VDict items =>
      match dict_get "content" items with
      | None => true
      | Some (VDict content) =>
          bool_decide (dict_get "parts" content = None)
      | Some _ => false
      end
  | _ => true
  end.

Definition text_event (texts : list string) : value :=
  VDict [("content",
          VDict [("parts",
                  VList (map (fun t => VDict [("text", VStr t)]) texts))])].

(** Texts passed to the placeholder, in call order. *)
Definition observer_calls (l : list event) : list string :=
  omap (fun e => match e with
                 | placeholder_markdown t => Some t
                 | _ => None
                 end) l.

Definition roles (history : list message) : list string := map role history.

(** Roles strictly alternate from the expected one on. *)
Fixpoint alternates_from (user_expected : bool) (rs : list string) : bool :=
  match rs with
  | [] => true
  | r :: rest =>
      String.eqb r (if user_expected then "user" else "assistant")
      && alternates_from (negb user_expected) rest
  end.

(** Roles strictly alternate, starting with the user. *)
Definition alternating (rs : list string) : bool := alternates_from true rs.

(** Every user turn has been answered: user, assistant, user,
    assistant, ... *)
Fixpoint answered (rs : list string) : bool :=
  match rs with
  | [] => true
  | r1 :: r2 :: rest =>
      String.eqb r1 "user" && String.eqb r2 "assistant" && answered rest
  | _ => false
  end.

Definition user_turn (prompt : string) : message :=
  {| role := "user"; content := prompt |}.

Definition assistant_turn (full : string) : message :=
  {| role := "assistant"; content := full |}.

(** [st.session_state.messages.get(key, [])]. *)
Definition history (st : session_state) (key : option string) : list message :=
  default [] (messages st !! key).

(** The state once the user turn of a cycle is recorded. *)
Definition with_user_turn (prompt : string) (st : session_state)
    : session_state :=
  set_messages
    (<[session_id st := history st (session_id st) ++ [user_turn prompt]]>
       (messages st)) st.

(** The state at the end of a completed cycle. *)
Definition committed (prompt full : string) (updated : session_obj)
    (st : session_state) : session_state :=
  set_sessions
    (Streamlit.replace_session (sessions st) (session_id st) updated)
    (set_messages
       (<[session_id st :=
            history st (session_id st)
              ++ [user_turn prompt; assistant_turn full]]> (messages st)) st).

(** The state once [create_new_session] has recorded a new session. *)
Definition with_new_session (obj : session_obj) (st : session_state)
    : session_state :=
  {| session_id := Some (sess_id obj);
     sessions := sessions st ++ [obj];
     messages := <[Some (sess_id obj) := []]> (messages st);
     user_id := user_id st |}.

(** What every cycle logs first. *)
Definition cycle_head (prompt : string) (st : session_state) : list event :=
  [ui_markdown prompt;
   history_append (session_id st) (user_turn prompt);
   call_stream_query prompt (user_id st) (session_id st)].

(** ** A replaying engine for concrete runs

    Its world is the list of streams still to be served; created
    sessions and snapshots are fixed. *)

Definition replay_engine (created snapshot : exn + session_obj)
    : agent_engine (list stream) :=
  {| create_session := fun _ w => (w, created);
     async_stream_query := fun _ _ _ w =>
       match w with
       | [] => ([], Stream [] None)
       | s :: rest => (rest, s)
       end;
     async_get_session := fun _ _ w => (w, snapshot) |}.

Module Scenario.

Definition s1 : session_obj :=
  {| sess_id := "s1"; sess_state := VDict [] |}.

Definition s1_after : session_obj :=
  {| sess_id := "s1";
     sess_state := VDict [("ticker", VStr "GOOGL")] |}.

Definition s2 : session_obj :=
  {| sess_id := "s2"; sess_state := VDict [] |}.

Definition engine : agent_engine (list stream) :=
  replay_engine (inr s1) (inr s1_after).

(** The stream of the scenario: two text events, then the end. *)
Definition googl_stream : stream :=
  {| yielded := [text_event ["Ticker "]; text_event ["GOOGL"]];
     ending := None |}.

(** A stream that fails after its first fragment. *)
Definition broken_stream : stream :=
  {| yielded := [text_event ["Ticker "]];
     ending := Some (RemoteError "connection reset") |}.

Definition submit (prompt : string) : widgets :=
  {| new_chat := false; session_selector := None;
     chat_input := Some prompt |}.

(** A session exists for user [u1] and is active. *)
Definition active : session_state :=
  {| session_id := Some "s1"; sessions := [s1];
     messages := {[ Some "s1" := [] ]}; user_id := "u1" |}.

(** The active session has one answered turn behind it. *)
Definition answered_once : session_state :=
  {| session_id := Some "s1"; sessions := [s1];
     messages := {[ Some "s1" := [user_turn "AAPL";
                                  assistant_turn "Ticker AAPL"] ]};
     user_id := "u1" |}.

(** Two sessions with histories; [s1] is active. *)
Definition two_sessions : session_state :=
  {| session_id := Some "s1"; sessions := [s1; s2];
     messages := {[ Some "s1" := [];
                    Some "s2" := [ {| role := "user"; content := "hi" |};
                                   {| role := "assistant"; content := "hello" |} ] ]};
     user_id := "u1" |}.

End Scenario.

(** Accumulator values after each appended piece. *)
Fixpoint running (acc : string) (pieces : list string) : list string :=
  match pieces with
  | [] => []
  | p :: rest => (acc +:+ p) :: running (acc +:+ p) rest
  end.

Definition concat_all (pieces : list string) : string :=
  fold_right String.append "" pieces.

Definition streaming_call (acc : string) : event :=
  placeholder_markdown (acc +:+ Aggregator.cursor).

(** A logged computation started with accumulator [acc] only reports
    growing accumulators, and returns the last one. *)
Definition traced (acc : string) (m : logged string) : Prop :=
  exists pieces,
    fst m = map streaming_call (running acc pieces) /\
    forall acc', snd m = Ok acc' -> acc' = acc +:+ concat_all pieces.

(** ** Well-formed fragments and the text they carry *)

Definition part_text (p : value) : option string :=
  match p with
  | VDict items =>
      match dict_get "text" items with
      | Some (VStr t) => Some t
      | _ => None
      end
  | _ => None
  end.

(** A raw string, or a text event whose parts are dictionaries with an
    optional string ["text"]. *)
Definition fragment_ok (v : value) : bool :=
  match v with
  | VStr _ => true
  | _ =>
      match event_parts v with
      | Some parts => forallb part_ok parts
      | None => false
      end
  end.

(** The text pieces of a fragment, in part order. *)
Definition fragment_texts (v : value) : list string :=
  match v with
  | VStr s => [s]
  | _ =>
      match event_parts v with
      | Some parts => omap part_text parts
      | None => []
      end
  end.

(** Fragments the Streamlit loop handles without raising. *)
Definition tolerated (v : value) : bool := fragment_ok v || unknown_kind v.

(** Fragments the command-line loop handles without raising: it has no
    dictionary test, and its membership test on a raw string is a
    substring test. *)
Definition cli_tolerated (v : value) : bool :=
  match v with
  | VStr s => negb (str_contains "content" s)
  | VDict _ => fragment_ok v || unknown_kind v
  | _ => false
  end.

(** ** Engine calls in a log *)

Definition is_create_call (e : event) : bool :=
  match e with call_create_session _ => true | _ => false end.

Definition is_stream_call (e : event) : bool :=
  match e with call_stream_query _ _ _ => true | _ => false end.

Definition is_get_call (e : event) : bool :=
  match e with call_get_session _ _ => true | _ => false end.

Definition count_calls (p : event -> bool) (l : list event) : nat :=
  length (List.filter p l).

(** ** The selector of the sidebar (lines 106-121) *)

(** The value [st.selectbox] returns, when the box is shown: the choice
    of the user, by default the option at [current_session_index]. *)
Definition selector_value (wd : widgets) (st : session_state)
    : option string :=
  match sessions st with
  | [] => None
  | _ =>
      let session_options := map sess_id (sessions st) in
      Some (match session_selector wd with
            | Some choice => choice
            | None =>
                nth (default 0 (Streamlit.index_of (session_id st)
                                  session_options))
                    session_options ""
            end)
  end.

(** The session the sidebar switches to, if it does (line 124). *)
Definition switches_to (wd : widgets) (st : session_state) : option string :=
  match selector_value wd st with
  | Some selected =>
      if str_truthy selected
         && negb (bool_decide (Some selected = session_id st))
      then Some selected else None
  | None => None
  end.

(** ** The two tabs (lines 208-225) *)

Inductive rendered : Type :=
| chat_bubble (who text : string)
| header (text : string)
| json_view (obj : session_obj)
| warning (text : string)
| info (text : string).

(** Line 219: [next((s for s in sessions if s["id"] == session_id), None)]. *)
Fixpoint find_session (ss : list session_obj) (sid : option string)
    : option session_obj :=
  match ss with
  | [] => None
  | s :: rest =>
      if bool_decide (Some (sess_id s) = sid) then Some s
      else find_session rest sid
  end.

(** Lines 208-213. *)
Definition chat_tab (st : session_state) : list rendered :=
  if id_truthy (session_id st)
  then map (fun m => chat_bubble (role m) (content m))
           (history st (session_id st))
  else [].

(** Lines 215-225. *)
Definition state_tab (st : session_state) : list rendered :=
  header "Current ADK Session State" ::
  (if id_truthy (session_id st)
   then match find_session (sessions st) (session_id st) with
        | Some current_session_obj => [json_view current_session_obj]
        | None => [warning "Could not find the selected session object."]
        end
   else [info "No active session."]).

(** One run of the whole page.  The tabs are filled by the last lines
    of the script, so only in a run that reaches them: [st.rerun()] and
    an exception stop the run before.  The result is what the chat tab
    and the state tab show. *)
Definition shown_tabs {W} (agent : agent_engine W) (wd : widgets)
    (s : W * session_state) : option (list rendered * list rendered) :=
  let run := Streamlit.script agent wd s in
  match snd (snd run) with
  | Ok _ => Some (chat_tab (snd (fst run)), state_tab (snd (fst run)))
  | _ => None
  end.

(** ** Snapshots of the engine *)

(** A session object [async_get_session] can answer. *)
Definition fetched_from {W} (agent : agent_engine W) (obj : session_obj)
    : Prop :=
  exists sid uid w, snd (async_get_session agent sid uid w) = inr obj.

(** The engine answers [async_get_session] with the session asked for. *)
Definition faithful {W} (agent : agent_engine W) : Prop :=
  forall sid uid w w1 snapshot,
    async_get_session agent (Some sid) uid w = (w1, inr snapshot) ->
    sess_id snapshot = sid.

(** A replaying engine whose snapshots carry the requested id. *)
Definition keyed_engine (created : exn + session_obj) (state : value)
    : agent_engine (list stream) :=
  {| create_session := fun _ w => (w, created);
     async_stream_query := fun _ _ _ w =>
       match w with
       | [] => ([], Stream [] None)
       | s :: rest => (rest, s)
       end;
     async_get_session := fun sid _ w =>
       (w, match sid with
           | Some i => inr {| sess_id := i; sess_state := state |}
           | None => inl (KeyError VNone)
           end) |}.

(** ** The command-line entry points

    [use_agent.main], [deployment/test_deployment.main],
    [deployment/deploy.main] and [deployment/update.main].  The hosting
    platform is a second remote service: looking an engine up gives its
    resource name and the handle used for sessions.  [vertexai.init]
    (project, location, staging bucket) sets the defaults of the SDK in
    the process; it checks its arguments and may raise, for instance a
    [ValueError] on a location it does not support. *)

Record platform (W : Type) := Platform {
  sdk_init : option string -> option string -> option string -> exn + unit;
  engines_get : string -> W -> W * (exn + (string * agent_engine W));
  engines_create : string -> W -> W * (exn + string);
  engines_update : string -> W -> W * (exn + string)
}.
Arguments sdk_init {W} _ _ _ _.
Arguments engines_get {W} _ _ _.
Arguments engines_create {W} _ _ _.
Arguments engines_update {W} _ _ _.

(** What a command prints and which platform calls it makes. *)
Inductive cli_event : Type :=
| print (line : string)
| print_exn (context : string) (e : exn)
| vertexai_init (project location staging_bucket : option string)
| engines_get_call (name : string)
| engines_create_call (display_name : string)
| engines_update_call (resource_name : string)
| session_log (e : event).

(** How a command ends: it returns, calls [sys.exit], or dies on an
    exception nobody caught. *)
Inductive finish : Type :=
| returned
| exited (code : Z)
| uncaught (e : exn).

(** The rerun signal does not exist outside Streamlit. *)
Definition finish_of (r : outcome unit) : finish :=
  match r with
  | Raise e => uncaught e
  | _ => returned
  end.

(** Truth value of a configuration value: [None] and [""] are false. *)
Definition opt_truthy (v : option string) : bool :=
  match v with Some s => str_truthy s | None => false end.

(** [v or d]. *)
Definition py_or (v : option string) (d : string) : string :=
  match v with
  | Some s => if str_truthy s then s else d
  | None => d
  end.

(** A configuration value inside an f-string. *)
Definition fmt (v : option string) : string :=
  match v with Some s => s | None => "None" end.

Module Cli.
Section WithPlatform.

Context {W : Type} (agent_engines : platform W).

Inductive resolution : Type :=
| usage_error
| project_error
| resolved (engine_name : string).

(** Lines 21-33 of [use_agent.py]: the engine name from the command
    line, qualified when only the numeric id was given. *)
Definition resolve_engine_name (argv : list string)
    (project_id location : option string) : resolution :=
  match argv with
  | _ :: engine_name :: _ =>
      if String.prefix "projects/" engine_name then resolved engine_name
      else if opt_truthy project_id then
        resolved ("projects/" +:+ fmt project_id +:+ "/locations/"
                  +:+ fmt location +:+ "/reasoningEngines/"
                  +:+ engine_name)
      else project_error
  | _ => usage_error
  end.

(** What a client prints before it initialises the SDK, and the call
    itself (lines 35-39 of [use_agent.py]). *)
Definition connecting (engine_name : string)
    (project_id location : option string) : list cli_event :=
  [print ("Connecting to Agent Engine: " +:+ engine_name);
   print ("Project: " +:+ fmt project_id +:+ ", Location: "
          +:+ fmt location);
   vertexai_init project_id location None].

(** The body shared by [use_agent.main] and [test_deployment.main],
    after the configuration has been read.  [vertexai.init] is called
    outside every [try]: what it raises ends the command. *)
Definition client_main (user_query : string) (argv : list string)
    (project_id location user_id_env : option string) (uuid : string)
    (w : W) : W * (list cli_event * finish) :=
  match resolve_engine_name argv project_id location with
  | usage_error =>
      (w, ([print "Usage: python use_agent.py <AGENT_ENGINE_RESOURCE_ID>";
            print "Example: python use_agent.py projects/my-project/locations/us-central1/reasoningEngines/123456"],
           exited 1))
  | project_error =>
      (w, ([print "Error: GOOGLE_CLOUD_PROJECT environment variable is required if only the ID is provided."],
           exited 1))
  | resolved engine_name =>
      let head := connecting engine_name project_id location in
      match sdk_init agent_engines project_id location None with
      | inl e => (w, (head, uncaught e))
      | inr _ =>
          match engines_get agent_engines engine_name w with
          | (w1, inl e) =>
              (w1, (head ++ [engines_get_call engine_name;
                             print_exn "Error connecting to agent: " e],
                    returned))
          | (w1, inr (resource_name, remote_agent)) =>
              let user_id :=
                py_or user_id_env
                  ("demo_user_" +:+ String.substring 0 4 uuid) in
              match UseAgent.main_from_session remote_agent user_id
                      user_query w1 with
              | (w2, (l, r)) =>
                  (w2, (head
                        ++ [engines_get_call engine_name;
                            print ("Successfully connected to: "
                                   +:+ resource_name)]
                        ++ map session_log l, finish_of r))
              end
          end
      end
  end.

(** [use_agent.main]: the location defaults to [us-central1]. *)
Definition use_agent_main (argv : list string)
    (project_id location user_id_env : option string) (uuid : string)
    : W -> W * (list cli_event * finish) :=
  client_main
    "I want to invest in tech stocks. Can you suggest a strategy for a 10-year horizon with moderate risk?"
    argv project_id (Some (py_or location "us-central1")) user_id_env uuid.

(** [test_deployment.main]: the location is taken as it is. *)
Definition test_deployment_main (argv : list string)
    (project_id location user_id_env : option string) (uuid : string)
    : W -> W * (list cli_event * finish) :=
  client_main "GOOGL" argv project_id location user_id_env uuid.

(** [deploy.create] (lines 25-50). *)
Definition deploy_create (agent_name : string) (w : W)
    : W * (list cli_event * finish) :=
  let head :=
    [print ("Deploying agent: " +:+ agent_name +:+ "...");
     engines_create_call agent_name] in
  match engines_create agent_engines agent_name w with
  | (w1, inl e) => (w1, (head, uncaught e))
  | (w1, inr resource_name) =>
      (w1, (head ++ [print ("Successfully created remote agent: "
                            +:+ resource_name)], returned))
  end.

(** Lines 82-84 of [deploy.py]. *)
Definition echo_config (project_id location bucket : option string)
    : list cli_event :=
  [print ("PROJECT: " +:+ fmt project_id);
   print ("LOCATION: " +:+ fmt location);
   print ("BUCKET: " +:+ fmt bucket)].

(** [deploy.main] (lines 74-103).  [vertexai.init] and [create] are
    called outside any [try]. *)
Definition deploy_main (agent_name : string)
    (project_id location bucket : option string) (w : W)
    : W * (list cli_event * finish) :=
  let echo := echo_config project_id location bucket in
  if negb (opt_truthy project_id) then
    (w, (echo ++ [print "Missing required environment variable: GOOGLE_CLOUD_PROJECT"],
         returned))
  else if negb (opt_truthy location) then
    (w, (echo ++ [print "Missing required environment variable: GOOGLE_CLOUD_LOCATION"],
         returned))
  else if negb (opt_truthy bucket) then
    (w, (echo ++ [print "Missing required environment variable: GOOGLE_CLOUD_STORAGE_BUCKET"],
         returned))
  else
    let staging_bucket := Some ("gs://" +:+ fmt bucket) in
    let init := [vertexai_init project_id location staging_bucket] in
    match sdk_init agent_engines project_id location staging_bucket with
    | inl e => (w, (echo ++ init, uncaught e))
    | inr _ =>
        match deploy_create agent_name w with
        | (w1, (l, f)) => (w1, (echo ++ init ++ l, f))
        end
    end.

(** [update.update] (lines 30-46). *)
Definition update_update (agent_name engine_name : string) (w : W)
    : W * (list cli_event * finish) :=
  let head :=
    [print ("Updating agent engine: " +:+ engine_name +:+ " with agent: "
            +:+ agent_name +:+ "...");
     engines_update_call engine_name] in
  match engines_update agent_engines engine_name w with
  | (w1, inl e) => (w1, (head, uncaught e))
  | (w1, inr resource_name) =>
      (w1, (head ++ [print ("Successfully updated remote agent: "
                            +:+ resource_name)], returned))
  end.

(** [update.main] (lines 49-69).  [vertexai.init] and [update] are
    called outside any [try]. *)
Definition update_main (agent_name : string) (argv : list string)
    (project_id location bucket : option string) (w : W)
    : W * (list cli_event * finish) :=
  match argv with
  | _ :: engine_name :: _ =>
      let staging_bucket := Some ("gs://" +:+ fmt bucket) in
      let init := [vertexai_init project_id location staging_bucket] in
      match sdk_init agent_engines project_id location staging_bucket with
      | inl e => (w, (init, uncaught e))
      | inr _ =>
          match update_update agent_name engine_name w with
          | (w1, (l, f)) => (w1, (init ++ l, f))
          end
      end
  | _ =>
      (w, ([print "Usage: python update.py <AGENT_ENGINE_RESOURCE_ID>"],
           exited 1))
  end.

End WithPlatform.
End Cli.

(** Platform calls in the log of a command. *)
Definition is_platform_call (e : cli_event) : bool :=
  match e with
  | vertexai_init _ _ _ | engines_get_call _ | engines_create_call _
  | engines_update_call _ => true
  | session_log e => is_create_call e || is_stream_call e || is_get_call e
  | print _ | print_exn _ _ => false
  end.

(** Lines 136-138, and 101-103: create a session, then rerun. *)
Definition create_and_rerun {W} (agent : agent_engine W) (w : W)
    (st : session_state) : (W * session_state) * logged unit :=
  match create_session agent (user_id st) w with
  | (w1, inr obj) =>
      ((w1, with_new_session obj st),
       ([ui_info "Creating a new session...";
         call_create_session (user_id st)], Rerun))
  | (w1, inl e) =>
      ((w1, st),
       ([ui_info "Creating a new session...";
         call_create_session (user_id st)], Raise e))
  end.

(** What the command-line loop prints for a text piece. *)
Definition printed_piece (t : string) : event := stdout (VStr t).

(** A platform with fixed answers, for concrete runs. *)
Definition fixed_platform (initialised : exn + unit)
    (found : exn + (string * agent_engine (list stream)))
    (created updated : exn + string) : platform (list stream) :=
  {| sdk_init := fun _ _ _ => initialised;
     engines_get := fun _ w => (w, found);
     engines_create := fun _ w => (w, created);
     engines_update := fun _ w => (w, updated) |}.

(** A command prints only, and calls no remote service. *)
Definition silent (log : list cli_event) : bool :=
  forallb (fun e => negb (is_platform_call e)) log.

(** Proof steps for running script code symbolically. *)
Ltac app_simpl :=
  cbn [fst snd session_id user_id messages sessions set_messages
       set_sessions set_session_id of_sum].

Ltac norm_log :=
  repeat (progress (cbn [app]; rewrite ?app_nil_r, <- ?app_assoc)).

(** * Properties *)

(** ** Strings *)

Lemma str_app_cons c s t : String c s +:+ t = String c (s +:+ t).
Proof. reflexivity. Qed.

Lemma str_app_nil_r s : s +:+ "" = s.
Proof. induction s as [|c s IH]; [reflexivity|]. by rewrite str_app_cons, IH. Qed.

Lemma str_app_assoc s t u : (s +:+ t) +:+ u = s +:+ (t +:+ u).
Proof.
  induction s as [|c s IH]; [reflexivity|]. by rewrite !str_app_cons, IH.
Qed.

Lemma str_prefix_app a c : String.prefix a (a +:+ c) = true.
Proof.
  induction a as [|x a IH]; [by destruct c|].
  rewrite str_app_cons. simpl. destruct (ascii_dec x x); [exact IH|congruence].
Qed.

Lemma concat_all_app p q : concat_all (p ++ q) = concat_all p +:+ concat_all q.
Proof.
  induction p as [|x p IH]; [reflexivity|].
  simpl. unfold concat_all in *. simpl. by rewrite IH, str_app_assoc.
Qed.

Lemma running_app acc p q :
  running acc (p ++ q) = running acc p ++ running (acc +:+ concat_all p) q.
Proof.
  revert acc. induction p as [|x p IH]; intros acc.
  - simpl. unfold concat_all. simpl. by rewrite str_app_nil_r.
  - simpl. rewrite IH. do 2 f_equal.
    unfold concat_all. simpl. by rewrite str_app_assoc.
Qed.


(** ** The log monad *)

Lemma lbind_lift {A B} (r : outcome A) (f : A -> logged B) :
  lbind (lift_outcome r) f =
  match r with
  | Ok a => f a
  | Raise e => ([], Raise e)
  | Rerun => ([], Rerun)
  end.
Proof. destruct r; simpl; [by destruct (f a)|done..]. Qed.



(** ** The response loop reports a growing accumulator *)

Lemma traced_ret acc : traced acc (lret acc).
Proof.
  exists []. split; [done|]. intros acc' [= <-].
  unfold concat_all. simpl. by rewrite str_app_nil_r.
Qed.

Lemma traced_lift {A} acc (r : outcome A) (f : A -> logged string) :
  (forall a, r = Ok a -> traced acc (f a)) ->
  traced acc (lbind (lift_outcome r) f).
Proof.
  intros H. rewrite lbind_lift. destruct r as [a|e|]; [by apply H|..];
    (exists []; split; [done|]; intros ? [=]).
Qed.

Lemma traced_emit acc p (k : logged string) :
  traced (acc +:+ p) k ->
  traced acc (lbind (lemit (streaming_call (acc +:+ p))) (fun _ => k)).
Proof.
  intros (pieces & Hlog & Hret). exists (p :: pieces).
  destruct k as [l r]. simpl in *. split; [by rewrite Hlog|].
  intros acc' H. rewrite (Hret _ H). unfold concat_all. simpl.
  by rewrite str_app_assoc.
Qed.

Lemma traced_bind acc (m : logged string) (f : string -> logged string) :
  traced acc m -> (forall a, traced a (f a)) -> traced acc (lbind m f).
Proof.
  intros (p & Hlog & Hret) Hf. destruct m as [l [a|e|]]; simpl in *.
  - destruct (Hf a) as (q & Hlog' & Hret'). destruct (f a) as [l' r'].
    simpl in *. exists (p ++ q). rewrite running_app, map_app.
    rewrite <- (Hret a eq_refl), Hlog, Hlog'. split; [done|].
    intros acc' H. rewrite (Hret' _ H), (Hret a eq_refl), concat_all_app.
    by rewrite str_app_assoc.
  - exists p. split; [done|]. intros ? [=].
  - exists p. split; [done|]. intros ? [=].
Qed.

Lemma parts_loop_traced parts acc : traced acc (Aggregator.parts_loop parts acc).
Proof.
  revert acc. induction parts as [|part rest IH]; intros acc; simpl.
  - apply traced_ret.
  - apply traced_lift. intros [|] _; [|apply IH].
    apply traced_lift. intros t _. apply traced_lift. intros acc' H.
    destruct t; simpl in H; try discriminate. injection H as <-.
    apply traced_emit, IH.
Qed.

Lemma on_other_chunk_traced chunk acc :
  traced acc (Aggregator.on_other_chunk chunk acc).
Proof.
  destruct chunk; unfold Aggregator.on_other_chunk; try apply traced_ret.
  apply (traced_emit acc s (lret (acc +:+ s))), traced_ret.
Qed.

Lemma on_chunk_traced chunk acc : traced acc (Aggregator.on_chunk chunk acc).
Proof.
  unfold Aggregator.on_chunk.
  destruct (isinstance_dict chunk); [|apply on_other_chunk_traced].
  apply traced_lift. intros [|] _; [|apply on_other_chunk_traced].
  apply traced_lift. intros c _.
  apply traced_lift. intros [|] _; [|apply on_other_chunk_traced].
  do 3 (apply traced_lift; intros ? _). apply parts_loop_traced.
Qed.

Lemma chunks_loop_traced chunks acc :
  traced acc (Aggregator.chunks_loop chunks acc).
Proof.
  revert acc. induction chunks as [|chunk rest IH]; intros acc; simpl.
  - apply traced_ret.
  - apply traced_bind; [apply on_chunk_traced|]. intros a. apply IH.
Qed.



Lemma observer_calls_app l1 l2 :
  observer_calls (l1 ++ l2) = observer_calls l1 ++ observer_calls l2.
Proof. apply omap_app. Qed.






(** ** One request cycle of the Streamlit handler *)

Section CycleFacts.

Context {W : Type} (agent : agent_engine W).
Import Streamlit.

(** The handler, case by case on what the engine does. *)
Lemma handle_prompt_run prompt w st :
  handle_prompt agent prompt (w, st) =
  match async_stream_query agent prompt (user_id st) (session_id st) w with
  | (w1, s) =>
    match Aggregator.stream_loop s with
    | (l, Ok full) =>
        match async_get_session agent (session_id st) (user_id st) w1 with
        | (w2, inr updated) =>
            ((w2, committed prompt full updated st),
             (cycle_head prompt st ++ l ++
                [call_get_session (session_id st) (user_id st);
                 history_append (session_id st) (assistant_turn full)],
              Rerun))
        | (w2, inl e) =>
            ((w2, with_user_turn prompt st),
             (cycle_head prompt st ++ l ++
                [call_get_session (session_id st) (user_id st)], Raise e))
        end
    | (l, Raise e) =>
        ((w1, with_user_turn prompt st), (cycle_head prompt st ++ l, Raise e))
    | (l, Rerun) =>
        ((w1, with_user_turn prompt st), (cycle_head prompt st ++ l, Rerun))
    end
  end.
Proof.
  unfold handle_prompt, append_user_turn, get_response_and_session,
    append_assistant_turn, update_session_list, agent_stream_query,
    agent_get_session, bind, emit, lift, modify, get_state, raise, rerun,
    ret, lemit, lret.
  app_simpl.
  destruct (async_stream_query agent prompt (user_id st) (session_id st) w)
    as [w1 s].
  destruct (Aggregator.stream_loop s) as [l [full|e|]]; app_simpl;
    [|by norm_log..].
  destruct (async_get_session agent (session_id st) (user_id st) w1)
    as [w2 [e|updated]]; app_simpl; [by norm_log|].
  rewrite lookup_insert_eq. app_simpl. rewrite insert_insert_eq.
  unfold committed, cycle_head, history, user_turn, assistant_turn.
  by norm_log.
Qed.

(** [create_new_session], case by case on what the engine does. *)
Lemma create_new_session_run w st :
  create_new_session agent (w, st) =
  match create_session agent (user_id st) w with
  | (w1, inr obj) =>
      ((w1, with_new_session obj st),
       ([ui_info "Creating a new session...";
         call_create_session (user_id st)], Ok tt))
  | (w1, inl e) =>
      ((w1, st),
       ([ui_info "Creating a new session...";
         call_create_session (user_id st)], Raise e))
  end.
Proof.
  unfold create_new_session, agent_create_session, bind, emit, modify,
    get_state, lemit, lret.
  app_simpl.
  destruct (create_session agent (user_id st) w) as [w1 [e|obj]]; app_simpl;
    [done|].
  by destruct st.
Qed.

(** A run without a session creates one and reruns. *)
Lemma script_initial uid w wd :
  script agent wd (w, initial_state uid) =
  match create_session agent uid w with
  | (w1, inr obj) =>
      ((w1, with_new_session obj (initial_state uid)),
       ([ui_info "Creating a new session..."; call_create_session uid],
        Rerun))
  | (w1, inl e) =>
      ((w1, initial_state uid),
       ([ui_info "Creating a new session..."; call_create_session uid],
        Raise e))
  end.
Proof.
  destruct wd as [[|] selector input];
    cbv beta iota zeta delta
      [script sidebar bind ret get_state lret rerun fst snd initial_state
       session_id sessions id_truthy new_chat];
    rewrite create_new_session_run; simpl user_id;
    by destruct (create_session agent uid w) as [w1 [e|obj]].
Qed.

Lemma index_of_nth sid options :
  In sid options ->
  exists i, index_of (Some sid) options = Some i /\ nth i options "" = sid.
Proof.
  induction options as [|o rest IH]; [done|]. intros Hin. simpl.
  case_bool_decide as Ho.
  - exists 0. split; [done|]. by injection Ho.
  - destruct Hin as [->|Hin]; [done|].
    destruct (IH Hin) as (i & Hi & Hnth). exists (S i). by rewrite Hi.
Qed.

(** A submitted prompt on the active session, with the selector left
    on that session, goes straight to the handler. *)
Lemma script_submit prompt w st sid :
  session_id st = Some sid ->
  str_truthy sid = true ->
  In sid (map sess_id (sessions st)) ->
  str_truthy prompt = true ->
  script agent (Scenario.submit prompt) (w, st)
  = handle_prompt agent prompt (w, st).
Proof.
  intros Hsid Htruthy Hin Hprompt.
  destruct (index_of_nth sid _ Hin) as (i & Hi & Hnth).
  destruct (sessions st) as [|s0 ss] eqn:Hss; [done|].
  cbv beta iota zeta delta
    [script sidebar bind ret get_state lret rerun fst snd
     Scenario.submit new_chat session_selector chat_input select_session].
  rewrite Hss, Hsid, Hi. cbn [default from_option id]. rewrite Hnth, Htruthy.
  rewrite bool_decide_true by done. cbn [negb andb]. rewrite Hsid.
  cbn [id_truthy]. rewrite Htruthy, Hprompt. cbn [app].
  by destruct (handle_prompt agent prompt (w, st)) as [s2 [l2 r2]].
Qed.

End CycleFacts.

(** ** What the response loop logs *)


Lemma chunks_loop_log chunks acc ev :
  In ev (fst (Aggregator.chunks_loop chunks acc)) ->
  exists t, ev = placeholder_markdown t.
Proof.
  destruct (chunks_loop_traced chunks acc) as (pieces & -> & _).
  intros (a & <- & _)%in_map_iff. by eexists.
Qed.

Lemma stream_loop_run s :
  Aggregator.stream_loop s =
  match Aggregator.chunks_loop (yielded s) "" with
  | (l, Ok full) =>
      match ending s with
      | Some e => (l, Raise e)
      | None => (l ++ [placeholder_markdown full], Ok full)
      end
  | other => other
  end.
Proof.
  unfold Aggregator.stream_loop.
  destruct (Aggregator.chunks_loop (yielded s) "") as [l [full|e|]];
    simpl; [|done..].
  destruct (ending s); simpl; by rewrite ?app_nil_r.
Qed.

Lemma stream_loop_log s ev :
  In ev (fst (Aggregator.stream_loop s)) ->
  exists t, ev = placeholder_markdown t.
Proof.
  rewrite stream_loop_run.
  pose proof (chunks_loop_log (yielded s) "" ev) as Hlog.
  destruct (Aggregator.chunks_loop (yielded s) "") as [l [full|e|]];
    simpl in *; [|done..].
  destruct (ending s); simpl; [done|].
  intros [H|[<-|[]]]%in_app_or; [auto|by eexists].
Qed.

(** The loop never ends on the rerun signal. *)
Lemma chunks_loop_no_rerun chunks acc :
  snd (Aggregator.chunks_loop chunks acc) <> Rerun.
Proof.
  assert (Hparts : forall parts a,
             snd (Aggregator.parts_loop parts a) <> Rerun).
  { induction parts as [|part rest IH]; intros a; [done|].
    cbn [Aggregator.parts_loop]. rewrite lbind_lift.
    destruct (py_in "text" part) as [[|]|e|] eqn:Hin;
      [|apply IH|done|by destruct part].
    rewrite lbind_lift.
    destruct (py_getitem part "text") as [t|e|] eqn:Hget; [|done|].
    - rewrite lbind_lift. destruct t; simpl; try done.
      specialize (IH (a +:+ s)).
      by destruct (Aggregator.parts_loop rest (a +:+ s)).
    - destruct part; simpl in Hget; try done.
      by destruct (dict_get "text" items). }
  assert (Hchunk : forall c a, snd (Aggregator.on_chunk c a) <> Rerun).
  { intros c a. unfold Aggregator.on_chunk.
    destruct c as [| | |s|items|items]; try done.
    cbn [isinstance_dict py_in]. rewrite lbind_lift.
    case_bool_decide as Hc; [|done].
    cbn [py_getitem]. destruct (dict_get "content" items) as [c|]; [|done].
    rewrite lbind_lift.
    destruct (py_in "parts" c) as [[|]|e|] eqn:Hin;
      [|done|done|by destruct c].
    rewrite !lbind_lift.
    destruct c as [| | | | |content]; try done. cbn [py_getitem].
    destruct (dict_get "parts" content) as [ps|]; [|done].
    destruct ps; cbn [py_iter]; rewrite ?lbind_lift; try done;
      apply Hparts. }
  revert acc. induction chunks as [|c rest IH]; intros acc; [done|].
  cbn [Aggregator.chunks_loop].
  specialize (Hchunk c acc).
  destruct (Aggregator.on_chunk c acc) as [l [a|e|]]; simpl; try done.
  specialize (IH a). by destruct (Aggregator.chunks_loop rest a).
Qed.

Lemma stream_loop_no_rerun s : snd (Aggregator.stream_loop s) <> Rerun.
Proof.
  rewrite stream_loop_run.
  pose proof (chunks_loop_no_rerun (yielded s) "") as H.
  destruct (Aggregator.chunks_loop (yielded s) "") as [l [full|e|]];
    simpl in *; [|done..].
  by destruct (ending s).
Qed.

(** ** A stream that fails mid-iteration *)




(** ** The GOOGL scenario *)

(** C3: user [u1] has no session yet; the first run of the script
    creates one, the second submits ["GOOGL"], the stream yields the text
    events ["Ticker "] and ["GOOGL"] and ends.  The aggregated text is
    ["Ticker GOOGL"], and the history of the session is the user turn
    ["GOOGL"] followed by the assistant turn ["Ticker GOOGL"]. *)
Theorem googl_scenario {W} (agent : agent_engine W)
    w0 w1 w2 w3 created updated :
  create_session agent "u1" w0 = (w1, inr created) ->
  str_truthy (sess_id created) = true ->
  async_stream_query agent "GOOGL" "u1" (Some (sess_id created)) w1
  = (w2, Scenario.googl_stream) ->
  async_get_session agent (Some (sess_id created)) "u1" w2
  = (w3, inr updated) ->
  let final :=
    snd (fst (Streamlit.runs agent [no_input; Scenario.submit "GOOGL"]
                (w0, initial_state "u1"))) in
  Aggregator.stream_loop Scenario.googl_stream
  = ([placeholder_markdown ("Ticker " +:+ Aggregator.cursor);
      placeholder_markdown ("Ticker GOOGL" +:+ Aggregator.cursor);
      placeholder_markdown "Ticker GOOGL"], Ok "Ticker GOOGL") /\
  session_id final = Some (sess_id created) /\
  messages final !! Some (sess_id created)
  = Some [ {| role := "user"; content := "GOOGL" |};
           {| role := "assistant"; content := "Ticker GOOGL" |} ].
Proof.
  intros Hcreate Htruthy Hquery Hget final. split; [reflexivity|].
  subst final. cbn [Streamlit.runs].
  rewrite script_initial, Hcreate.
  rewrite (script_submit agent "GOOGL" w1 _ (sess_id created));
    [|done|done|simpl; by left|done].
  rewrite handle_prompt_run. cbn [user_id session_id with_new_session
                                  initial_state].
  rewrite Hquery.
  change (Aggregator.stream_loop Scenario.googl_stream)
    with ([placeholder_markdown ("Ticker " +:+ Aggregator.cursor);
           placeholder_markdown ("Ticker GOOGL" +:+ Aggregator.cursor);
           placeholder_markdown "Ticker GOOGL"], Ok "Ticker GOOGL").
  cbv iota beta. rewrite Hget. cbn [fst snd].
  split; [done|].
  unfold committed, history. cbn [messages sessions session_id
                                   set_messages set_sessions].
  unfold with_new_session. cbn [messages session_id].
  by rewrite !lookup_insert_eq.
Qed.

Lemma googl_scenario_witness :
  messages
    (snd (fst (Streamlit.runs Scenario.engine
                 [no_input; Scenario.submit "GOOGL"]
                 ([Scenario.googl_stream], initial_state "u1"))))
    !! Some "s1"
  = Some [ {| role := "user"; content := "GOOGL" |};
           {| role := "assistant"; content := "Ticker GOOGL" |} ].
Proof.
  exact (proj2 (proj2 (googl_scenario Scenario.engine
                         [Scenario.googl_stream] [Scenario.googl_stream]
                         [] [] Scenario.s1 Scenario.s1_after
                         eq_refl eq_refl eq_refl eq_refl))).
Defined.

(** ** Fragments of unknown kind *)

(** What the Streamlit loop does step over. *)
Lemma streamlit_skips_unknown_kind chunk acc :
  unknown_kind chunk = true ->
  Aggregator.on_chunk chunk acc = lret acc.
Proof.
  intros H. destruct chunk as [| | |s|items|items]; try done.
  unfold unknown_kind in H. unfold Aggregator.on_chunk.
  cbn [isinstance_dict py_in py_getitem].
  destruct (dict_get "content" items) as [c|] eqn:Hc.
  - destruct c as [| | | | |content]; try done.
    apply bool_decide_eq_true in H.
    rewrite bool_decide_true by eauto. rewrite !lbind_lift.
    cbn [py_in]. rewrite H.
    rewrite bool_decide_false by (intros [? [=]]). by rewrite ?lbind_lift.
  - rewrite bool_decide_false by (intros [? [=]]). by rewrite ?lbind_lift.
Qed.

(** A raw string that contains ["content"] also stops the command-line
    loop: the membership test is a substring test there. *)
Example cli_raw_string_raises :
  UseAgent.events_loop [VStr "no content yet"; VStr "hello"]
  = ([], Raise TypeError).
Proof. reflexivity. Qed.

(** C4 does not hold of the code.  The command-line loop tests
    ["content" in event] on every fragment: a fragment that is neither a
    dictionary nor a string (here the number 42) raises [TypeError], the
    [except] clause reports it and the text event that follows is never
    printed.  The Streamlit loop guards with [isinstance(chunk, dict)] and
    steps over 42, but a dictionary whose ["content"] is [None] raises
    there too, and the string after it is never appended. *)
Theorem unknown_fragment_aborts :
  UseAgent.events_loop [VInt 42; text_event ["hello"]]
  = ([], Raise TypeError) /\
  UseAgent.stream_block
    {| yielded := [VInt 42; text_event ["hello"]]; ending := None |}
  = ([stdout_error "
Error during streaming query: " TypeError], Ok tt) /\
  UseAgent.events_loop [text_event ["hello"]]
  = ([stdout (VStr "hello")], Ok tt) /\
  Aggregator.chunks_loop [VInt 42; text_event ["hello"]] ""
  = ([placeholder_markdown ("hello" +:+ Aggregator.cursor)], Ok "hello") /\
  Aggregator.chunks_loop [VDict [("content", VNone)]; VStr "hello"] ""
  = ([], Raise TypeError).
Proof. repeat split. Qed.

(** ** The session list *)

Lemma replace_session_length ss sid u :
  length (Streamlit.replace_session ss sid u) = length ss.
Proof.
  induction ss as [|s ss IH]; [done|]. simpl.
  case_bool_decide; simpl; by rewrite ?IH.
Qed.

Lemma replace_session_other ss sid u i s :
  ss !! i = Some s -> Some (sess_id s) <> sid ->
  Streamlit.replace_session ss sid u !! i = Some s.
Proof.
  revert i. induction ss as [|s0 ss IH]; intros i Hi Hne; [done|]. simpl.
  case_bool_decide as Hs0.
  - destruct i as [|i]; [|done]. simpl in Hi. by simplify_eq.
  - destruct i as [|i]; [done|]. simpl in *. by apply IH.
Qed.

Lemma replace_session_first ss sid u i s :
  ss !! i = Some s -> Some (sess_id s) = sid ->
  (forall j s', j < i -> ss !! j = Some s' -> Some (sess_id s') <> sid) ->
  Streamlit.replace_session ss sid u !! i = Some u.
Proof.
  revert i. induction ss as [|s0 ss IH]; intros i Hi Hs Hfirst; [done|].
  simpl. case_bool_decide as Hs0.
  - destruct i as [|i]; [done|].
    by destruct (Hfirst 0 s0 ltac:(lia) eq_refl).
  - destruct i as [|i]; [simpl in Hi; by simplify_eq|]. simpl in *.
    apply IH; [done..|]. intros j s' Hj Hs'.
    apply (Hfirst (S j) s'); [lia|done].
Qed.

Lemma replace_session_later ss sid u i j s s' :
  i < j -> ss !! i = Some s -> Some (sess_id s) = sid ->
  ss !! j = Some s' ->
  Streamlit.replace_session ss sid u !! j = Some s'.
Proof.
  revert i j. induction ss as [|s0 ss IH]; intros i j Hij Hi Hs Hj; [done|].
  simpl. case_bool_decide as Hs0.
  - destruct j as [|j]; [lia|done].
  - destruct i as [|i]; [simpl in Hi; by simplify_eq|].
    destruct j as [|j]; [lia|]. simpl in *.
    apply (IH i j); [lia|done..].
Qed.

Lemma replace_session_absent ss sid u :
  (forall s, In s ss -> Some (sess_id s) <> sid) ->
  Streamlit.replace_session ss sid u = ss.
Proof.
  induction ss as [|s0 ss IH]; intros Habs; [done|]. simpl.
  rewrite bool_decide_false by (apply Habs; by left).
  f_equal. apply IH. intros s Hs. apply Habs. by right.
Qed.

Lemma replace_session_twice ss sid u :
  Some (sess_id u) = sid \/ NoDup (map sess_id ss) ->
  Streamlit.replace_session (Streamlit.replace_session ss sid u) sid u
  = Streamlit.replace_session ss sid u.
Proof.
  induction ss as [|s0 ss IH]; intros H; [done|]. simpl.
  case_bool_decide as Hs0.
  - simpl. case_bool_decide as Hu; [done|].
    destruct H as [H|H]; [done|]. f_equal.
    apply replace_session_absent. intros s Hs Hid.
    apply NoDup_cons in H as [Hnotin _]. apply Hnotin.
    apply list_elem_of_In, in_map_iff. exists s. split; [|done].
    congruence.
  - simpl. rewrite bool_decide_false by done. f_equal. apply IH.
    destruct H as [H|H]; [by left|right].
    by apply NoDup_cons in H as [_ H].
Qed.

(** ** Turn order *)

Lemma pair_induction {A} (P : list A -> Prop) :
  P [] -> (forall x, P [x]) -> (forall x y l, P l -> P (x :: y :: l)) ->
  forall l, P l.
Proof.
  intros Hnil Hone Hstep.
  assert (H : forall l, P l /\ forall x, P (x :: l)).
  { induction l as [|y l [IH1 IH2]]; [by split|].
    split; [apply IH2|]. intros x. by apply Hstep. }
  intros l. apply H.
Qed.

Lemma answered_user rs :
  answered rs = true -> alternating (rs ++ ["user"]) = true.
Proof.
  induction rs as [| x | x y rs IH] using pair_induction; [done|done|].
  cbn [answered]. intros [[Hx Hy]%andb_prop H]%andb_prop.
  unfold alternating in *. cbn [app alternates_from negb].
  rewrite Hx, Hy. by apply IH.
Qed.

Lemma answered_pair rs :
  answered rs = true -> answered (rs ++ ["user"; "assistant"]) = true.
Proof.
  induction rs as [| x | x y rs IH] using pair_induction; [done|done|].
  cbn [answered]. intros [[Hx Hy]%andb_prop H]%andb_prop.
  cbn [app answered]. rewrite Hx, Hy. by apply IH.
Qed.

Lemma answered_alternating rs : answered rs = true -> alternating rs = true.
Proof.
  induction rs as [| x | x y rs IH] using pair_induction; [done|done|].
  cbn [answered]. intros [[Hx Hy]%andb_prop H]%andb_prop.
  unfold alternating in *. cbn [alternates_from negb].
  rewrite Hx, Hy. by apply IH.
Qed.

(** C5, as stated, fails: after a cycle whose stream raised, the next
    cycle appends its user turn right after the unanswered one, and the
    roles of the history read user, user, assistant. *)
Lemma turns_alternate_counterexample :
  let final :=
    snd (fst (Streamlit.runs Scenario.engine
                [Scenario.submit "GOOGL"; Scenario.submit "AAPL"]
                ([Scenario.broken_stream; Scenario.googl_stream],
                 Scenario.active))) in
  roles (history final (Some "s1")) = ["user"; "user"; "assistant"] /\
  alternating (roles (history final (Some "s1"))) = false.
Proof. vm_compute. by split. Qed.

(** C5, amended: in every cycle the user turn is appended to the history
    of the active session before the stream query is issued.  The
    assistant turn is appended only when the stream has ended normally
    and [async_get_session] has returned, after both, and then the cycle
    ends on a rerun; a cycle whose stream raises (a fragment the loop
    cannot read, or the stream itself) or whose [async_get_session]
    raises ends on that exception and appends the user turn alone.  The
    history only grows at its end.  If every user turn of the history
    was answered before the cycle, the roles alternate after it, starting
    with the user, and every turn is answered again when the cycle
    completes. *)
Theorem cycle_turn_order {W} (agent : agent_engine W) prompt w st :
  let run := Streamlit.handle_prompt agent prompt (w, st) in
  let log := fst (snd run) in
  let st' := snd (fst run) in
  let key := session_id st in
  let query := async_stream_query agent prompt (user_id st) key w in
  let streamed := snd (Aggregator.stream_loop (snd query)) in
  let fetched := snd (async_get_session agent key (user_id st) (fst query)) in
  exists rest,
    log = [ui_markdown prompt; history_append key (user_turn prompt);
           call_stream_query prompt (user_id st) key] ++ rest /\
    history st key `prefix_of` history st' key /\
    (forall full,
        streamed = Ok full <->
        snd (Aggregator.chunks_loop (yielded (snd query)) "") = Ok full /\
        ending (snd query) = None) /\
    streamed <> Rerun /\
    (forall full snapshot,
        streamed = Ok full -> fetched = inr snapshot ->
        history st' key
        = history st key ++ [user_turn prompt; assistant_turn full] /\
        snd (snd run) = Rerun /\
        exists shown,
          rest = shown ++ [call_get_session key (user_id st);
                           history_append key (assistant_turn full)] /\
          forall ev, In ev shown -> exists t, ev = placeholder_markdown t) /\
    (forall e,
        streamed = Raise e ->
        history st' key = history st key ++ [user_turn prompt] /\
        snd (snd run) = Raise e /\
        (forall k m, ~ In (history_append k m) rest) /\
        (forall sid uid, ~ In (call_get_session sid uid) rest)) /\
    (forall full e,
        streamed = Ok full -> fetched = inl e ->
        history st' key = history st key ++ [user_turn prompt] /\
        snd (snd run) = Raise e /\
        forall k m, ~ In (history_append k m) rest) /\
    (forall k full,
        In (history_append k (assistant_turn full)) log ->
        k = key /\ streamed = Ok full /\
        exists snapshot, fetched = inr snapshot) /\
    (answered (roles (history st key)) = true ->
     alternating (roles (history st' key)) = true /\
     (snd (snd run) = Rerun -> answered (roles (history st' key)) = true)).
Proof.
  intros run log st' key query streamed fetched.
  subst run log st' streamed fetched query key.
  rewrite handle_prompt_run.
  destruct (async_stream_query agent prompt (user_id st) (session_id st) w)
    as [w1 s].
  cbn [fst snd].
  pose proof (stream_loop_log s) as Hshown.
  pose proof (stream_loop_no_rerun s) as Hnorerun.
  pose proof (stream_loop_run s) as Hrun.
  assert (Hended : forall full,
            snd (Aggregator.stream_loop s) = Ok full <->
            snd (Aggregator.chunks_loop (yielded s) "") = Ok full /\
            ending s = None).
  { intros full. rewrite Hrun.
    destruct (Aggregator.chunks_loop (yielded s) "") as [l0 [full0|e0|]];
      cbn [snd]; [|by split; [|intros []]..].
    destruct (ending s) as [e0|]; cbn [snd]; [by split; [|intros []]|].
    split; [done|by intros []]. }
  clear Hrun.
  assert (Huser : history (with_user_turn prompt st) (session_id st)
                  = history st (session_id st) ++ [user_turn prompt]).
  { unfold history at 1, with_user_turn. simpl.
    by rewrite lookup_insert_eq. }
  assert (Hfail : forall l, (forall ev, In ev l -> exists t,
                                ev = placeholder_markdown t) ->
             (forall k m, ~ In (history_append k m) l) /\
             (forall sid uid, ~ In (call_get_session sid uid) l)).
  { intros l Hl. split; intros ? ? Hin; by destruct (Hl _ Hin). }
  destruct (Aggregator.stream_loop s) as [l [full|e|]]; simpl in Hshown,
    Hnorerun; [|..|done]; cbn [fst snd] in *.
  - destruct (async_get_session agent (session_id st) (user_id st) w1)
      as [w2 [e|updated]]; cbn [fst snd].
    + exists (l ++ [call_get_session (session_id st) (user_id st)]).
      split; [done|]. rewrite Huser.
      split; [by apply prefix_app_r|].
      split; [exact Hended|]. split; [done|].
      split; [done|]. split; [done|]. split; [|split].
      * intros full' e' [= <-] [= <-]. split; [done|]. split; [done|].
        intros k m [H|[H|[]]]%in_app_or; [|done].
        by apply (proj1 (Hfail l Hshown) k m).
      * intros k full' [H|[H|[H|H]]]; try discriminate. simpl in H.
        apply in_app_or in H as [H|[H|[]]]; [|done].
        by destruct (Hshown _ H).
      * intros Hans. split; [|done].
        unfold roles. rewrite map_app. by apply answered_user.
    + assert (Hdone : history (committed prompt full updated st)
                        (session_id st)
                      = history st (session_id st)
                          ++ [user_turn prompt; assistant_turn full]).
      { unfold history at 1, committed. simpl.
        by rewrite lookup_insert_eq. }
      exists (l ++ [call_get_session (session_id st) (user_id st);
                    history_append (session_id st) (assistant_turn full)]).
      split; [done|]. rewrite Hdone.
      split; [by apply prefix_app_r|].
      split; [exact Hended|]. split; [done|]. split; [|split; [|split]].
      * intros full' snapshot' [= <-] [= <-]. split; [done|].
        split; [done|]. by exists l.
      * done.
      * done.
      * split.
        -- intros k full' [H|[H|[H|H]]]; try discriminate. simpl in H.
           apply in_app_or in H as [H|[H|[H|[]]]]; [|done|].
           ++ by destruct (Hshown _ H).
           ++ injection H as <- <-. split; [done|]. split; [done|].
              by exists updated.
        -- intros Hans. unfold roles. rewrite map_app.
           split; [|intros _]; [apply answered_alternating|];
             by apply answered_pair.
  - exists l. split; [done|]. rewrite Huser.
    split; [by apply prefix_app_r|].
    split; [exact Hended|]. split; [done|]. split; [done|].
    split; [|split; [done|split]].
    + intros e' [= <-]. split; [done|]. split; [done|]. by apply Hfail.
    + intros k full' [H|[H|[H|H]]]; try discriminate. simpl in H.
      by destruct (Hshown _ H).
    + intros Hans. split; [|done].
      unfold roles. rewrite map_app. by apply answered_user.
Qed.

Lemma cycle_turn_order_witness :
  (let run :=
     Streamlit.handle_prompt Scenario.engine "GOOGL"
       ([Scenario.googl_stream], Scenario.answered_once) in
   history (snd (fst run)) (Some "s1")
   = [user_turn "AAPL"; assistant_turn "Ticker AAPL";
      user_turn "GOOGL"; assistant_turn "Ticker GOOGL"] /\
   alternating (roles (history (snd (fst run)) (Some "s1"))) = true /\
   answered (roles (history (snd (fst run)) (Some "s1"))) = true) /\
  (let run :=
     Streamlit.handle_prompt Scenario.engine "GOOGL"
       ([Scenario.broken_stream], Scenario.answered_once) in
   history (snd (fst run)) (Some "s1")
   = [user_turn "AAPL"; assistant_turn "Ticker AAPL"; user_turn "GOOGL"] /\
   snd (snd run) = Raise (RemoteError "connection reset")).
Proof.
  split.
  - destruct (cycle_turn_order Scenario.engine "GOOGL"
                [Scenario.googl_stream] Scenario.answered_once)
      as (rest & _ & _ & _ & _ & Hdone & _ & _ & _ & Halt).
    destruct (Hdone "Ticker GOOGL" Scenario.s1_after eq_refl eq_refl)
      as (Hhist & Hrerun & _).
    destruct (Halt eq_refl) as [Ha Hb].
    split; [exact Hhist|]. split; [exact Ha|exact (Hb Hrerun)].
  - destruct (cycle_turn_order Scenario.engine "GOOGL"
                [Scenario.broken_stream] Scenario.answered_once)
      as (rest & _ & _ & _ & _ & _ & Hraise & _).
    destruct (Hraise (RemoteError "connection reset") eq_refl)
      as (Hhist & Hexn & _).
    split; [exact Hhist|exact Hexn].
Defined.

(** ** Reconciliation *)

(** C7: when the stream of a cycle has ended normally,
    [async_get_session] is called for the active session, and once it
    returns its snapshot the session list is the old one with the entry
    of the active id replaced by the snapshot: the first entry carrying
    that id (the only one when ids are distinct) now holds the snapshot,
    every entry with another id is unchanged, and the list keeps its
    length. *)
Theorem reconcile_overwrites_active_entry {W} (agent : agent_engine W)
    prompt w st w1 s full w2 snapshot :
  async_stream_query agent prompt (user_id st) (session_id st) w = (w1, s) ->
  snd (Aggregator.stream_loop s) = Ok full ->
  async_get_session agent (session_id st) (user_id st) w1
  = (w2, inr snapshot) ->
  let run := Streamlit.handle_prompt agent prompt (w, st) in
  let log := fst (snd run) in
  let st' := snd (fst run) in
  In (call_get_session (session_id st) (user_id st)) log /\
  sessions st'
  = Streamlit.replace_session (sessions st) (session_id st) snapshot /\
  length (sessions st') = length (sessions st) /\
  (forall i s0,
      sessions st !! i = Some s0 -> Some (sess_id s0) <> session_id st ->
      sessions st' !! i = Some s0) /\
  (forall i s0,
      sessions st !! i = Some s0 -> Some (sess_id s0) = session_id st ->
      (forall j s', j < i -> sessions st !! j = Some s' ->
                    Some (sess_id s') <> session_id st) ->
      sessions st' !! i = Some snapshot) /\
  (NoDup (map sess_id (sessions st)) ->
   forall i s0,
     sessions st !! i = Some s0 -> Some (sess_id s0) = session_id st ->
     sessions st' !! i = Some snapshot).
Proof.
  intros Hquery Hloop Hget run log st'. subst run log st'.
  rewrite handle_prompt_run, Hquery.
  destruct (Aggregator.stream_loop s) as [l r]. simpl in Hloop. subst r.
  rewrite Hget. cbn [fst snd]. unfold committed. cbn [sessions].
  split.
  { apply in_or_app. right. apply in_or_app. right. by left. }
  split; [done|]. split; [apply replace_session_length|].
  split; [intros i s0; apply replace_session_other|].
  split; [intros i s0; apply replace_session_first|].
  intros Hnodup i s0 Hi Hs0.
  apply (replace_session_first _ _ _ i s0); [done..|].
  intros j s' Hj Hs' Hid.
  assert (i = j); [|lia].
  apply (NoDup_lookup (map sess_id (sessions st)) i j (sess_id s0)); [done|..].
  - change (map sess_id (sessions st)) with (sess_id <$> sessions st).
    by rewrite list_lookup_fmap, Hi.
  - change (map sess_id (sessions st)) with (sess_id <$> sessions st).
    rewrite list_lookup_fmap, Hs'. simpl. congruence.
Qed.

Lemma reconcile_overwrites_active_entry_witness :
  sessions
    (snd (fst (Streamlit.handle_prompt Scenario.engine "GOOGL"
                 ([Scenario.googl_stream], Scenario.two_sessions))))
  = [Scenario.s1_after; Scenario.s2].
Proof.
  exact (proj1 (proj2 (reconcile_overwrites_active_entry Scenario.engine
                         "GOOGL" [Scenario.googl_stream]
                         Scenario.two_sessions [] Scenario.googl_stream
                         "Ticker GOOGL" [] Scenario.s1_after
                         eq_refl eq_refl eq_refl))).
Defined.

(** C8: writing the same snapshot into the session list a second time
    changes nothing, provided the snapshot carries the id it was fetched
    for, or the ids of the list are distinct. *)
Theorem reconcile_idempotent {W} (w : W) st snapshot :
  Some (sess_id snapshot) = session_id st \/
  NoDup (map sess_id (sessions st)) ->
  let once := fst (Streamlit.update_session_list snapshot (w, st)) in
  fst (Streamlit.update_session_list snapshot once) = once /\
  sessions (snd once)
  = Streamlit.replace_session (sessions st) (session_id st) snapshot.
Proof.
  intros H once. subst once.
  unfold Streamlit.update_session_list, Streamlit.modify. cbn [fst snd].
  split; [|done]. f_equal. unfold set_sessions. cbn [sessions session_id].
  f_equal. by apply replace_session_twice.
Qed.

Lemma reconcile_idempotent_witness :
  let once :=
    fst (Streamlit.update_session_list Scenario.s1_after
           (@nil stream, Scenario.two_sessions)) in
  fst (Streamlit.update_session_list Scenario.s1_after once) = once.
Proof.
  exact (proj1 (reconcile_idempotent (@nil stream) Scenario.two_sessions
                  Scenario.s1_after (or_introl eq_refl))).
Defined.

(** ** Session creation *)

(** C9: when [create_session] raises, [create_new_session] has called
    it once, mutates nothing and lets the same exception through: the
    session id, the session list and the histories are what they were.
    A script run that starts without a session ends there, still without
    a session.  The command-line client calls [create_session] once,
    prints the error and returns without querying. *)
Theorem create_session_failure_is_atomic {W} (agent : agent_engine W)
    uid w w1 e :
  create_session agent uid w = (w1, inl e) ->
  (forall st, user_id st = uid ->
     Streamlit.create_new_session agent (w, st)
     = ((w1, st),
        ([ui_info "Creating a new session..."; call_create_session uid],
         Raise e))) /\
  (forall wd,
     Streamlit.script agent wd (w, initial_state uid)
     = ((w1, initial_state uid),
        ([ui_info "Creating a new session..."; call_create_session uid],
         Raise e))) /\
  (forall user_query,
     UseAgent.main_from_session agent uid user_query w
     = (w1, ([call_create_session uid;
              stdout_error "Error creating session: " e], Ok tt))).
Proof.
  intros Hcreate. split; [|split].
  - intros st <-. by rewrite create_new_session_run, Hcreate.
  - intros wd. by rewrite script_initial, Hcreate.
  - intros q. unfold UseAgent.main_from_session. by rewrite Hcreate.
Qed.

Lemma create_session_failure_is_atomic_witness :
  Streamlit.script
    (replay_engine (inl (RemoteError "unreachable")) (inr Scenario.s1))
    no_input ([], initial_state "u1")
  = (([], initial_state "u1"),
     ([ui_info "Creating a new session..."; call_create_session "u1"],
      Raise (RemoteError "unreachable"))).
Proof.
  exact (proj1 (proj2 (create_session_failure_is_atomic
                         (replay_engine (inl (RemoteError "unreachable"))
                            (inr Scenario.s1))
                         "u1" [] [] (RemoteError "unreachable") eq_refl))
           no_input).
Defined.

(** ** Histories of the other sessions *)

(** C10: a cycle touches the history stored under the active session id
    only: the entry of every other key is what it was, whatever the
    engine does.  Selecting a session changes the current session id and
    nothing else. *)
Theorem history_isolation {W} (agent : agent_engine W) prompt w st k :
  k <> session_id st ->
  messages (snd (fst (Streamlit.handle_prompt agent prompt (w, st)))) !! k
  = messages st !! k /\
  (forall selected,
     let st' := snd (fst (Streamlit.select_session selected (w, st))) in
     messages st' = messages st /\ sessions st' = sessions st /\
     user_id st' = user_id st /\
     (session_id st' = Some selected \/ session_id st' = session_id st)).
Proof.
  intros Hk. split.
  - rewrite handle_prompt_run.
    destruct (async_stream_query agent prompt (user_id st) (session_id st) w)
      as [w1 s].
    destruct (Aggregator.stream_loop s) as [l [full|e|]]; cbn [fst snd];
      [|by apply lookup_insert_ne..].
    destruct (async_get_session agent (session_id st) (user_id st) w1)
      as [w2 [e|updated]]; cbn [fst snd]; by apply lookup_insert_ne.
  - intros selected st'. subst st'.
    unfold Streamlit.select_session, Streamlit.bind, Streamlit.get_state,
      Streamlit.modify, Streamlit.rerun, Streamlit.ret, lret.
    cbn [fst snd].
    destruct (str_truthy selected
              && negb (bool_decide (Some selected = session_id st)));
      cbn [fst snd]; auto.
Qed.

Lemma history_isolation_witness :
  messages
    (snd (fst (Streamlit.handle_prompt Scenario.engine "GOOGL"
                 ([Scenario.googl_stream], Scenario.two_sessions))))
    !! Some "s2"
  = messages Scenario.two_sessions !! Some "s2".
Proof.
  apply (history_isolation Scenario.engine "GOOGL" [Scenario.googl_stream]
           Scenario.two_sessions (Some "s2")).
  discriminate.
Defined.

(** * Further properties of the clients *)

(** ** Aggregation of well-formed fragments *)

Lemma concat_all_nil : concat_all [] = "".
Proof. reflexivity. Qed.

Lemma concat_all_cons t ps : concat_all (t :: ps) = t +:+ concat_all ps.
Proof. reflexivity. Qed.

Lemma parts_loop_ok parts acc :
  forallb part_ok parts = true ->
  Aggregator.parts_loop parts acc
  = (map streaming_call (running acc (omap part_text parts)),
     Ok (acc +:+ concat_all (omap part_text parts))).
Proof.
  revert acc. induction parts as [|part parts IH]; intros acc Hok.
  - unfold concat_all. simpl. by rewrite str_app_nil_r.
  - simpl in Hok. apply andb_prop in Hok as [Hp Hok].
    destruct part as [| | | | |items]; try discriminate.
    cbn [Aggregator.parts_loop py_in py_getitem omap list_omap part_text].
    unfold part_ok in Hp.
    destruct (dict_get "text" items) as [t|] eqn:Ht.
    + destruct t; try discriminate.
      rewrite bool_decide_true by eauto. rewrite !lbind_lift.
      cbn [str_iadd lbind lemit]. rewrite (IH (acc +:+ s) Hok).
      cbn [app running map]. rewrite concat_all_cons.
      by rewrite (str_app_assoc acc s (concat_all (omap part_text parts))).
    + rewrite bool_decide_false by (intros [? [=]]). rewrite lbind_lift.
      by apply IH.
Qed.

Lemma unknown_kind_texts chunk :
  unknown_kind chunk = true -> fragment_texts chunk = [].
Proof.
  destruct chunk as [| | |s|items|items]; try done.
  unfold unknown_kind, fragment_texts, event_parts.
  destruct (dict_get "content" items) as [c|]; [|done].
  destruct c as [| | | | |content]; try done.
  intros ->%bool_decide_eq_true. done.
Qed.

Lemma on_chunk_ok chunk acc :
  tolerated chunk = true ->
  Aggregator.on_chunk chunk acc
  = (map streaming_call (running acc (fragment_texts chunk)),
     Ok (acc +:+ concat_all (fragment_texts chunk))).
Proof.
  unfold tolerated. intros [Hok|Hunk]%orb_prop.
  - destruct chunk as [| | |s|items|items]; try discriminate.
    + unfold concat_all. simpl. by rewrite str_app_nil_r.
    + unfold fragment_ok in Hok. unfold fragment_texts.
      unfold event_parts in *. unfold Aggregator.on_chunk.
      cbn [isinstance_dict py_in py_getitem].
      destruct (dict_get "content" items) as [c|] eqn:Hc; [|done].
      destruct c as [| | | | |content]; try discriminate.
      destruct (dict_get "parts" content) as [ps|] eqn:Hps; [|done].
      destruct ps as [| | | |parts|]; try discriminate.
      rewrite bool_decide_true by eauto. rewrite !lbind_lift.
      cbn [py_in py_getitem]. rewrite Hps.
      rewrite bool_decide_true by eauto. rewrite !lbind_lift.
      cbn [py_iter]. by apply parts_loop_ok.
  - rewrite streamlit_skips_unknown_kind, unknown_kind_texts by done.
    unfold concat_all. simpl. by rewrite str_app_nil_r.
Qed.

(** X1: on fragments that are raw strings, text events or of unknown
    kind, the Streamlit loop never raises; it returns the starting text
    followed by every text piece in arrival order and calls the
    placeholder once per piece with the text accumulated so far. *)
Theorem aggregation_concatenates chunks acc :
  forallb tolerated chunks = true ->
  Aggregator.chunks_loop chunks acc
  = (map streaming_call
       (running acc (concat (map fragment_texts chunks))),
     Ok (acc +:+ concat_all (concat (map fragment_texts chunks)))).
Proof.
  revert acc. induction chunks as [|c chunks IH]; intros acc Hok.
  - unfold concat_all. simpl. by rewrite str_app_nil_r.
  - simpl in Hok. apply andb_prop in Hok as [Hc Hok].
    cbn [Aggregator.chunks_loop map concat].
    rewrite (on_chunk_ok c acc Hc). cbn [lbind].
    rewrite (IH _ Hok), running_app, map_app, concat_all_app.
    by rewrite str_app_assoc.
Qed.

Lemma aggregation_concatenates_witness :
  Aggregator.chunks_loop
    [text_event ["Ticker "; "GO"]; VInt 7; VStr "OGL"] ""
  = (map streaming_call ["Ticker "; "Ticker GO"; "Ticker GOOGL"],
     Ok "Ticker GOOGL").
Proof.
  exact (aggregation_concatenates
           [text_event ["Ticker "; "GO"]; VInt 7; VStr "OGL"] "" eq_refl).
Defined.

(** ** The command-line loop *)

Lemma print_parts_ok parts :
  forallb part_ok parts = true ->
  UseAgent.print_parts parts
  = (map printed_piece (omap part_text parts), Ok tt).
Proof.
  induction parts as [|part parts IH]; intros Hok; [done|].
  simpl in Hok. apply andb_prop in Hok as [Hp Hok].
  destruct part as [| | | | |items]; try discriminate.
  cbn [UseAgent.print_parts py_in py_getitem omap list_omap part_text].
  unfold part_ok in Hp.
  destruct (dict_get "text" items) as [t|] eqn:Ht.
  - destruct t; try discriminate.
    rewrite bool_decide_true by eauto. rewrite !lbind_lift.
    cbn [lbind lemit]. by rewrite (IH Hok).
  - rewrite bool_decide_false by (intros [? [=]]). rewrite lbind_lift.
    by apply IH.
Qed.

Lemma on_event_ok ev :
  cli_tolerated ev = true ->
  UseAgent.on_event ev = (map printed_piece (fragment_texts ev), Ok tt).
Proof.
  intros H. destruct ev as [| | |s|items|items]; try discriminate.
  - unfold UseAgent.on_event. cbn [py_in]. simpl in H.
    apply negb_true_iff in H. rewrite H. by rewrite lbind_lift.
  - cbn [cli_tolerated] in H. apply orb_prop in H as [Hok|Hunk].
    + unfold fragment_ok in Hok. unfold fragment_texts.
      unfold event_parts in *. unfold UseAgent.on_event.
      cbn [py_in py_getitem].
      destruct (dict_get "content" items) as [c|] eqn:Hc; [|done].
      destruct c as [| | | | |content]; try discriminate.
      destruct (dict_get "parts" content) as [ps|] eqn:Hps; [|done].
      destruct ps as [| | | |parts|]; try discriminate.
      rewrite bool_decide_true by eauto. rewrite !lbind_lift.
      cbn [py_in py_getitem]. rewrite Hps.
      rewrite bool_decide_true by eauto. rewrite !lbind_lift.
      cbn [py_iter]. by apply print_parts_ok.
    + rewrite unknown_kind_texts by done.
      unfold unknown_kind in Hunk. unfold UseAgent.on_event.
      cbn [py_in py_getitem].
      destruct (dict_get "content" items) as [c|] eqn:Hc.
      * destruct c as [| | | | |content]; try discriminate.
        apply bool_decide_eq_true in Hunk.
        rewrite bool_decide_true by eauto. rewrite !lbind_lift.
        cbn [py_in]. rewrite Hunk.
        rewrite bool_decide_false by (intros [? [=]]).
        by rewrite ?lbind_lift.
      * rewrite bool_decide_false by (intros [? [=]]).
        by rewrite ?lbind_lift.
Qed.

Lemma cli_tolerated_tolerated ev :
  cli_tolerated ev = true -> tolerated ev = true.
Proof. by destruct ev. Qed.

(** X2: on fragments both loops handle, the command-line client prints
    exactly the text pieces the Streamlit loop appends, in the same
    order, and the text Streamlit returns is their concatenation. *)
Theorem cli_prints_the_pieces chunks :
  forallb cli_tolerated chunks = true ->
  let pieces := concat (map fragment_texts chunks) in
  UseAgent.events_loop chunks = (map printed_piece pieces, Ok tt) /\
  Aggregator.chunks_loop chunks ""
  = (map streaming_call (running "" pieces), Ok (concat_all pieces)).
Proof.
  intros Hok pieces. subst pieces. split.
  - induction chunks as [|c chunks IH]; [done|].
    simpl in Hok. apply andb_prop in Hok as [Hc Hok].
    cbn [UseAgent.events_loop map concat].
    rewrite (on_event_ok c Hc). cbn [lbind].
    by rewrite (IH Hok), map_app.
  - rewrite <- (str_app_nil_r (concat_all _)) at 1.
    change (concat_all (concat (map fragment_texts chunks)) +:+ "")
      with ("" +:+ concat_all (concat (map fragment_texts chunks)) +:+ "").
    generalize "" at 1 2 3 as acc.
    induction chunks as [|c chunks IH]; intros acc.
    + unfold concat_all. simpl. by rewrite str_app_nil_r.
    + simpl in Hok. apply andb_prop in Hok as [Hc Hok].
      cbn [Aggregator.chunks_loop map concat].
      rewrite (on_chunk_ok c acc (cli_tolerated_tolerated c Hc)).
      cbn [lbind]. rewrite (IH Hok), running_app, map_app, concat_all_app.
      by rewrite !str_app_assoc.
Qed.

Lemma cli_prints_the_pieces_witness :
  UseAgent.events_loop [text_event ["Ticker "; "GO"]; VStr "OGL"]
  = ([printed_piece "Ticker "; printed_piece "GO"; printed_piece "OGL"],
     Ok tt).
Proof.
  exact (proj1 (cli_prints_the_pieces
                  [text_event ["Ticker "; "GO"]; VStr "OGL"] eq_refl)).
Defined.

(** The Python operations raise or return; they never signal a rerun. *)
Lemma py_in_no_rerun k v : py_in k v <> Rerun.
Proof. by destruct v. Qed.

Lemma py_getitem_no_rerun v k : py_getitem v k <> Rerun.
Proof. destruct v; try done. simpl. by destruct (dict_get k items). Qed.

Lemma py_iter_no_rerun v : py_iter v <> Rerun.
Proof. by destruct v. Qed.

(** A logged computation that only prints and never signals a rerun. *)
Lemma printing_bind {A B} (m : logged A) (f : A -> logged B) :
  (Forall (fun ev => exists v, ev = stdout v) (fst m) /\ snd m <> Rerun) ->
  (forall a, Forall (fun ev => exists v, ev = stdout v) (fst (f a)) /\
             snd (f a) <> Rerun) ->
  Forall (fun ev => exists v, ev = stdout v) (fst (lbind m f)) /\
  snd (lbind m f) <> Rerun.
Proof.
  intros [Hm Hr] Hf. destruct m as [l [a|e|]]; simpl in *; [|done..].
  destruct (Hf a) as [Hfa Hra]. destruct (f a) as [l' r']. simpl in *.
  split; [by apply Forall_app|done].
Qed.

Lemma printing_lift {A B} (r : outcome A) (f : A -> logged B) :
  r <> Rerun ->
  (forall a, Forall (fun ev => exists v, ev = stdout v) (fst (f a)) /\
             snd (f a) <> Rerun) ->
  Forall (fun ev => exists v, ev = stdout v) (fst (lbind (lift_outcome r) f))
  /\ snd (lbind (lift_outcome r) f) <> Rerun.
Proof. intros Hr Hf. apply printing_bind; [by split|done]. Qed.

Lemma print_parts_printing parts :
  Forall (fun ev => exists v, ev = stdout v) (fst (UseAgent.print_parts parts))
  /\ snd (UseAgent.print_parts parts) <> Rerun.
Proof.
  induction parts as [|part parts IH]; [by split|].
  cbn [UseAgent.print_parts].
  apply printing_lift; [apply py_in_no_rerun|]. intros [|]; [|done].
  apply printing_lift; [apply py_getitem_no_rerun|]. intros t.
  apply printing_bind; [|done].
  split; [|done]. apply Forall_singleton. by eexists.
Qed.

Lemma on_other_event_printing ev :
  Forall (fun ev => exists v, ev = stdout v)
    (fst (UseAgent.on_other_event ev))
  /\ snd (UseAgent.on_other_event ev) <> Rerun.
Proof.
  unfold UseAgent.on_other_event. destruct (isinstance_str ev); [|by split].
  split; [|done]. apply Forall_singleton. by eexists.
Qed.

Lemma events_loop_printing evs :
  Forall (fun ev => exists v, ev = stdout v) (fst (UseAgent.events_loop evs))
  /\ snd (UseAgent.events_loop evs) <> Rerun.
Proof.
  induction evs as [|ev evs IH]; [by split|].
  cbn [UseAgent.events_loop]. apply printing_bind; [|done].
  unfold UseAgent.on_event.
  apply printing_lift; [apply py_in_no_rerun|].
  intros [|]; [|apply on_other_event_printing].
  apply printing_lift; [apply py_getitem_no_rerun|]. intros c.
  apply printing_lift; [apply py_in_no_rerun|].
  intros [|]; [|apply on_other_event_printing].
  apply printing_lift; [apply py_getitem_no_rerun|]. intros c'.
  apply printing_lift; [apply py_getitem_no_rerun|]. intros ps.
  apply printing_lift; [apply py_iter_no_rerun|]. intros items.
  apply print_parts_printing.
Qed.

(** X3: the streaming block of the command-line client never lets an
    exception out.  What was printed before stays, and exactly one
    closing line follows: the completion banner when neither a fragment
    nor the stream raised, the error report otherwise. *)
Theorem stream_block_contained (s : stream) :
  let shown := fst (UseAgent.events_loop (yielded s)) in
  Forall (fun ev => exists v, ev = stdout v) shown /\
  snd (UseAgent.stream_block s) = Ok tt /\
  ((snd (UseAgent.events_loop (yielded s)) = Ok tt /\ ending s = None /\
    fst (UseAgent.stream_block s)
    = shown ++ [stdout (VStr "

--- Stream Completed ---")])
   \/
   (exists e,
      (snd (UseAgent.events_loop (yielded s)) = Raise e \/
       (snd (UseAgent.events_loop (yielded s)) = Ok tt /\
        ending s = Some e)) /\
      fst (UseAgent.stream_block s)
      = shown ++ [stdout_error "
Error during streaming query: " e])).
Proof.
  intros shown. subst shown.
  destruct (events_loop_printing (yielded s)) as [Hshown Hnorerun].
  split; [done|]. unfold UseAgent.stream_block.
  destruct (UseAgent.events_loop (yielded s)) as [l [[]|e|]];
    simpl in *; [| |done].
  - destruct (ending s) as [e|]; simpl.
    + split; [done|]. right. exists e. rewrite ?app_nil_r. eauto.
    + split; [done|]. left. by rewrite ?app_nil_r.
  - split; [done|]. right. exists e. eauto.
Qed.

(** ** One run of the Streamlit script, case by case *)

Lemma script_cases {W} (agent : agent_engine W) wd w st :
  Streamlit.script agent wd (w, st) =
  if new_chat wd then create_and_rerun agent w st
  else
    match switches_to wd st with
    | Some selected =>
        ((w, set_session_id (Some selected) st), ([], Rerun))
    | None =>
        if id_truthy (session_id st) then
          match chat_input wd with
          | Some prompt =>
              if str_truthy prompt
              then Streamlit.handle_prompt agent prompt (w, st)
              else ((w, st), ([], Ok tt))
          | None => ((w, st), ([], Ok tt))
          end
        else create_and_rerun agent w st
    end.
Proof.
  assert (Hcreate : forall w st,
    (let (s1, l) := Streamlit.create_new_session agent (w, st) in
     let (l1, o) := l in
     match o with
     | Ok _ => (s1, (l1 ++ [], @Rerun unit))
     | Raise e => (s1, (l1, Raise e))
     | Rerun => (s1, (l1, Rerun))
     end) = create_and_rerun agent w st).
  { intros w' st'. rewrite create_new_session_run. unfold create_and_rerun.
    by destruct (create_session agent (user_id st') w') as [w1 [e|obj]]. }
  destruct wd as [clicked selector input].
  unfold switches_to, selector_value.
  cbv beta iota zeta delta
    [Streamlit.script Streamlit.sidebar Streamlit.bind Streamlit.ret
     Streamlit.get_state lret Streamlit.rerun fst snd new_chat
     session_selector chat_input Streamlit.select_session
     Streamlit.modify].
  destruct clicked.
  { rewrite Hcreate. unfold create_and_rerun.
    by destruct (create_session agent (user_id st) w) as [w1 [e|obj]]. }
  destruct (sessions st) as [|s0 ss] eqn:Hss; cbv beta iota zeta.
  - destruct (id_truthy (session_id st)); cbv beta iota zeta.
    + destruct input as [prompt|]; [|done].
      destruct (str_truthy prompt); [|done].
      by destruct (Streamlit.handle_prompt agent prompt (w, st))
        as [s3 [l3 r3]].
    + rewrite Hcreate. unfold create_and_rerun.
      by destruct (create_session agent (user_id st) w) as [w1 [e|obj]].
  - match goal with
    | |- context [str_truthy ?sel && negb (bool_decide (Some ?sel = _))] =>
        destruct (str_truthy sel
                  && negb (bool_decide (Some sel = session_id st)))
    end; cbv beta iota zeta; [done|].
    destruct (id_truthy (session_id st)); cbv beta iota zeta.
    + destruct input as [prompt|]; [|done].
      destruct (str_truthy prompt); [|done].
      by destruct (Streamlit.handle_prompt agent prompt (w, st))
        as [s3 [l3 r3]].
    + rewrite Hcreate. unfold create_and_rerun.
      by destruct (create_session agent (user_id st) w) as [w1 [e|obj]].
Qed.

Lemma handle_prompt_shape {W} (agent : agent_engine W) prompt w st :
  exists w' st' shown tail r,
    Streamlit.handle_prompt agent prompt (w, st)
    = ((w', st'), (cycle_head prompt st ++ shown ++ tail, r)) /\
    (forall ev, In ev shown -> exists t, ev = placeholder_markdown t) /\
    (tail = [] \/
     tail = [call_get_session (session_id st) (user_id st)] \/
     exists full,
       tail = [call_get_session (session_id st) (user_id st);
               history_append (session_id st) (assistant_turn full)]) /\
    user_id st' = user_id st /\
    session_id st' = session_id st /\
    length (sessions st') = length (sessions st).
Proof.
  rewrite handle_prompt_run.
  destruct (async_stream_query agent prompt (user_id st) (session_id st) w)
    as [w1 s].
  pose proof (stream_loop_log s) as Hshown.
  destruct (Aggregator.stream_loop s) as [l [full|e|]]; simpl in Hshown.
  - destruct (async_get_session agent (session_id st) (user_id st) w1)
      as [w2 [e|updated]].
    + eexists w2, _, l, _, _. split; [done|]. split; [done|].
      split; [right; left; done|]. done.
    + eexists w2, _, l, _, _. split; [done|]. split; [done|].
      split; [right; right; by eexists|].
      split; [done|]. split; [done|]. apply replace_session_length.
  - eexists w1, _, l, [], _. rewrite app_nil_r. split; [done|].
    split; [done|]. split; [by left|]. done.
  - eexists w1, _, l, [], _. rewrite app_nil_r. split; [done|].
    split; [done|]. split; [by left|]. done.
Qed.

Lemma replace_session_ids ss sid u :
  Some (sess_id u) = sid ->
  map sess_id (Streamlit.replace_session ss sid u) = map sess_id ss.
Proof.
  intros Hu. induction ss as [|s0 ss IH]; [done|]. simpl.
  case_bool_decide as Hs0; simpl; [|by rewrite IH].
  f_equal. congruence.
Qed.

Lemma replace_session_lookup ss sid u i s :
  ss !! i = Some s ->
  exists s', Streamlit.replace_session ss sid u !! i = Some s' /\
             (s' = s \/ s' = u).
Proof.
  revert i. induction ss as [|s0 ss IH]; intros i Hi; [done|]. simpl.
  case_bool_decide as Hs0.
  - destruct i as [|i]; simpl in *; [|by eauto].
    exists u. by split; [|right].
  - destruct i as [|i]; simpl in *; [by eauto|]. by apply IH.
Qed.

(** What one run does to the user id and the session list. *)
Lemma script_state {W} (agent : agent_engine W) wd w st :
  let st' := snd (fst (Streamlit.script agent wd (w, st))) in
  user_id st' = user_id st /\
  length (sessions st) <= length (sessions st') /\
  (forall i s, sessions st !! i = Some s ->
     exists s', sessions st' !! i = Some s' /\
                (s' = s \/ fetched_from agent s')) /\
  (faithful agent ->
   map sess_id (sessions st) `prefix_of` map sess_id (sessions st')).
Proof.
  intros st'. subst st'. rewrite script_cases.
  assert (Hsame : forall st1 : session_state,
    user_id st1 = user_id st -> sessions st1 = sessions st ->
    user_id st1 = user_id st /\
    length (sessions st) <= length (sessions st1) /\
    (forall i s, sessions st !! i = Some s ->
       exists s', sessions st1 !! i = Some s' /\
                  (s' = s \/ fetched_from agent s')) /\
    (faithful agent ->
     map sess_id (sessions st) `prefix_of` map sess_id (sessions st1))).
  { intros st1 Hu ->. split; [done|]. split; [done|]. split; [|done].
    intros i s Hi. exists s. by split; [|left]. }
  assert (Hcreate :
    let st1 := snd (fst (create_and_rerun agent w st)) in
    user_id st1 = user_id st /\
    length (sessions st) <= length (sessions st1) /\
    (forall i s, sessions st !! i = Some s ->
       exists s', sessions st1 !! i = Some s' /\
                  (s' = s \/ fetched_from agent s')) /\
    (faithful agent ->
     map sess_id (sessions st) `prefix_of` map sess_id (sessions st1))).
  { unfold create_and_rerun.
    destruct (create_session agent (user_id st) w) as [w1 [e|obj]];
      cbn [fst snd]; [by apply Hsame|].
    cbn [with_new_session user_id sessions].
    split; [done|]. split; [rewrite length_app; lia|]. split.
    - intros i s Hi. exists s. split; [|by left].
      by apply lookup_app_l_Some.
    - intros _. rewrite map_app. by apply prefix_app_r. }
  assert (Hhandle : forall prompt,
    id_truthy (session_id st) = true ->
    let st1 := snd (fst (Streamlit.handle_prompt agent prompt (w, st))) in
    user_id st1 = user_id st /\
    length (sessions st) <= length (sessions st1) /\
    (forall i s, sessions st !! i = Some s ->
       exists s', sessions st1 !! i = Some s' /\
                  (s' = s \/ fetched_from agent s')) /\
    (faithful agent ->
     map sess_id (sessions st) `prefix_of` map sess_id (sessions st1))).
  { intros prompt Hid. rewrite handle_prompt_run.
    destruct (async_stream_query agent prompt (user_id st) (session_id st) w)
      as [w1 s].
    destruct (Aggregator.stream_loop s) as [l [full|e|]];
      [|by apply Hsame..].
    destruct (async_get_session agent (session_id st) (user_id st) w1)
      as [w2 [e|updated]] eqn:Hget; [by apply Hsame|].
    cbn [fst snd committed set_sessions set_messages user_id sessions].
    split; [done|]. split; [by rewrite replace_session_length|]. split.
    - intros i s0 Hi.
      destruct (replace_session_lookup (sessions st) (session_id st)
                  updated i s0 Hi) as (s' & Hs' & [->| ->]).
      + exists s0. by split; [|left].
      + exists updated. split; [done|]. right.
        exists (session_id st), (user_id st), w1. by rewrite Hget.
    - intros Hfaithful.
      destruct (session_id st) as [sid|] eqn:Hsid; [|done].
      rewrite replace_session_ids; [done|].
      f_equal. by apply (Hfaithful sid (user_id st) w1 w2). }
  destruct (new_chat wd); [exact Hcreate|].
  destruct (switches_to wd st); [by apply Hsame|].
  destruct (id_truthy (session_id st)) eqn:Hid; [|exact Hcreate].
  destruct (chat_input wd) as [prompt|]; [|by apply Hsame].
  destruct (str_truthy prompt); [by apply Hhandle|by apply Hsame].
Qed.

(** X4: whatever the user does and whatever the engine answers, a
    sequence of script runs keeps the user id of the client, never
    shortens the session list and never moves an entry: every position
    keeps its entry or holds a snapshot that [async_get_session]
    answered, and new sessions are added at the end.  When the engine
    answers [async_get_session] with the session asked for, the ids of
    the list stay where they are: the ids before the runs are a prefix
    of the ids after them, so no session is lost. *)
Theorem runs_keep_user_and_sessions {W} (agent : agent_engine W) ws w st :
  let st' := snd (fst (Streamlit.runs agent ws (w, st))) in
  user_id st' = user_id st /\
  length (sessions st) <= length (sessions st') /\
  (forall i s, sessions st !! i = Some s ->
     exists s', sessions st' !! i = Some s' /\
                (s' = s \/ fetched_from agent s')) /\
  (faithful agent ->
   map sess_id (sessions st) `prefix_of` map sess_id (sessions st') /\
   forall sid, In sid (map sess_id (sessions st)) ->
               In sid (map sess_id (sessions st'))).
Proof.
  assert (Hruns : forall ws w st,
    let st' := snd (fst (Streamlit.runs agent ws (w, st))) in
    user_id st' = user_id st /\
    length (sessions st) <= length (sessions st') /\
    (forall i s, sessions st !! i = Some s ->
       exists s', sessions st' !! i = Some s' /\
                  (s' = s \/ fetched_from agent s')) /\
    (faithful agent ->
     map sess_id (sessions st) `prefix_of` map sess_id (sessions st'))).
  { clear ws w st. induction ws as [|wd ws IH]; intros w st.
    - split; [done|]. split; [done|]. split; [|done].
      intros i s Hi. exists s. by split; [|left].
    - cbn [Streamlit.runs].
      pose proof (script_state agent wd w st) as Hstep.
      destruct (Streamlit.script agent wd (w, st)) as [[w1 st1] [l1 r1]].
      cbn [fst snd] in Hstep. specialize (IH w1 st1).
      destruct (Streamlit.runs agent ws (w1, st1)) as [[w2 st2] l2].
      cbn [fst snd] in *.
      destruct Hstep as (Hu & Hl & Hpos & Hids).
      destruct IH as (Hu' & Hl' & Hpos' & Hids').
      split; [congruence|]. split; [lia|]. split.
      + intros i s Hi. destruct (Hpos i s Hi) as (s1 & Hs1 & Hor).
        destruct (Hpos' i s1 Hs1) as (s2 & Hs2 & Hor').
        exists s2. split; [done|].
        destruct Hor' as [->|Hf]; [exact Hor|by right].
      + intros Hf. etrans; [by apply Hids|by apply Hids']. }
  intros st'. subst st'.
  destruct (Hruns ws w st) as (Hu & Hl & Hpos & Hids).
  split; [done|]. split; [done|]. split; [done|].
  intros Hf. split; [by apply Hids|].
  intros sid Hin. destruct (Hids Hf) as [more ->].
  apply in_or_app. by left.
Qed.

Lemma runs_keep_user_and_sessions_witness :
  let st' :=
    snd (fst (Streamlit.runs
                (keyed_engine (inr Scenario.s2) (VDict []))
                [Scenario.submit "GOOGL";
                 {| new_chat := true; session_selector := None;
                    chat_input := None |}]
                ([Scenario.googl_stream], Scenario.two_sessions))) in
  map sess_id (sessions Scenario.two_sessions)
    `prefix_of` map sess_id (sessions st') /\
  forall sid, In sid (map sess_id (sessions Scenario.two_sessions)) ->
              In sid (map sess_id (sessions st')).
Proof.
  apply (runs_keep_user_and_sessions
           (keyed_engine (inr Scenario.s2) (VDict []))
           [Scenario.submit "GOOGL";
            {| new_chat := true; session_selector := None;
               chat_input := None |}]
           [Scenario.googl_stream] Scenario.two_sessions).
  intros sid uid w w1 snapshot H. injection H as _ <-. reflexivity.
Defined.

(** X5: every call a script run makes to the engine carries the user id
    of the client.  A stream query is only made for a submitted,
    non-empty prompt and for the active session, whose id is not empty;
    [async_get_session] is only called for that same session. *)
Theorem engine_calls_of_a_run {W} (agent : agent_engine W) wd w st :
  let log := fst (snd (Streamlit.script agent wd (w, st))) in
  (forall uid, In (call_create_session uid) log -> uid = user_id st) /\
  (forall msg uid sid,
      In (call_stream_query msg uid sid) log ->
      uid = user_id st /\ sid = session_id st /\ id_truthy sid = true /\
      chat_input wd = Some msg /\ str_truthy msg = true /\
      new_chat wd = false) /\
  (forall sid uid,
      In (call_get_session sid uid) log ->
      uid = user_id st /\ sid = session_id st /\ id_truthy sid = true).
Proof.
  intros log. subst log. rewrite script_cases.
  assert (Hcreate :
    forall ev, In ev (fst (snd (create_and_rerun agent w st))) ->
               ev = ui_info "Creating a new session..." \/
               ev = call_create_session (user_id st)).
  { intros ev. unfold create_and_rerun.
    destruct (create_session agent (user_id st) w) as [w1 [e|obj]];
      simpl; intros [<-|[<-|[]]]; auto. }
  assert (Hhandle : forall prompt ev,
    In ev (fst (snd (Streamlit.handle_prompt agent prompt (w, st)))) ->
    ev = ui_markdown prompt \/
    ev = history_append (session_id st) (user_turn prompt) \/
    ev = call_stream_query prompt (user_id st) (session_id st) \/
    (exists t, ev = placeholder_markdown t) \/
    ev = call_get_session (session_id st) (user_id st) \/
    (exists full,
       ev = history_append (session_id st) (assistant_turn full))).
  { intros prompt ev.
    destruct (handle_prompt_shape agent prompt w st)
      as (w' & st' & shown & tail & r & -> & Hshown & Htail & _).
    simpl. intros [<-|[<-|[<-|Hin]]]; auto.
    apply in_app_or in Hin as [Hin|Hin].
    - right. right. right. left. by apply Hshown.
    - destruct Htail as [->|[->|[full ->]]]; [done|..].
      + destruct Hin as [<-|[]]. do 4 right. by left.
      + destruct Hin as [<-|[<-|[]]]; [do 4 right; by left|].
        do 5 right. by eexists. }
  destruct (new_chat wd) eqn:Hnew.
  { repeat split; intros; destruct (Hcreate _ H); congruence. }
  destruct (switches_to wd st).
  { by repeat split. }
  destruct (id_truthy (session_id st)) eqn:Hid.
  2:{ repeat split; intros; destruct (Hcreate _ H); congruence. }
  destruct (chat_input wd) as [prompt|]; [|by repeat split].
  destruct (str_truthy prompt) eqn:Hprompt; [|by repeat split].
  split; [|split].
  - intros uid H.
    destruct (Hhandle _ _ H) as [?|[?|[?|[[? ?]|[?|[? ?]]]]]]; congruence.
  - intros msg uid sid H.
    destruct (Hhandle _ _ H) as [?|[?|[?|[[? ?]|[?|[? ?]]]]]];
      try congruence.
    by simplify_eq.
  - intros sid uid H.
    destruct (Hhandle _ _ H) as [?|[?|[?|[[? ?]|[?|[? ?]]]]]];
      try congruence.
    by simplify_eq.
Qed.

Lemma engine_calls_of_a_run_witness :
  "u1" = user_id Scenario.active /\ Some "s1" = session_id Scenario.active /\
  id_truthy (Some "s1") = true /\
  chat_input (Scenario.submit "GOOGL") = Some "GOOGL" /\
  str_truthy "GOOGL" = true /\ new_chat (Scenario.submit "GOOGL") = false.
Proof.
  apply (proj1 (proj2 (engine_calls_of_a_run Scenario.engine
                         (Scenario.submit "GOOGL")
                         [Scenario.googl_stream] Scenario.active))).
  simpl. right. right. left. reflexivity.
Defined.

Lemma count_calls_app p l1 l2 :
  count_calls p (l1 ++ l2) = count_calls p l1 + count_calls p l2.
Proof. unfold count_calls. by rewrite List.filter_app, length_app. Qed.

Lemma count_calls_none p l :
  (forall ev, In ev l -> p ev = false) -> count_calls p l = 0.
Proof.
  induction l as [|ev l IH]; intros H; [done|].
  unfold count_calls in *. simpl. rewrite (H ev) by (by left).
  apply IH. intros ev' Hin. apply H. by right.
Qed.

(** X6: a script run asks the engine for at most one thing: it creates
    one session or sends one stream query, never both, and it calls
    [async_get_session] at most once, only after a stream query. *)
Theorem engine_call_budget {W} (agent : agent_engine W) wd w st :
  let log := fst (snd (Streamlit.script agent wd (w, st))) in
  count_calls is_create_call log + count_calls is_stream_call log <= 1 /\
  count_calls is_get_call log <= count_calls is_stream_call log.
Proof.
  intros log. subst log. rewrite script_cases.
  assert (Hcreate :
    let log := fst (snd (create_and_rerun agent w st)) in
    count_calls is_create_call log + count_calls is_stream_call log <= 1 /\
    count_calls is_get_call log <= count_calls is_stream_call log).
  { unfold create_and_rerun.
    destruct (create_session agent (user_id st) w) as [w1 [e|obj]];
      simpl; unfold count_calls; simpl; lia. }
  destruct (new_chat wd); [exact Hcreate|].
  destruct (switches_to wd st); [simpl; unfold count_calls; simpl; lia|].
  destruct (id_truthy (session_id st)); [|exact Hcreate].
  destruct (chat_input wd) as [prompt|];
    [|simpl; unfold count_calls; simpl; lia].
  destruct (str_truthy prompt); [|simpl; unfold count_calls; simpl; lia].
  destruct (handle_prompt_shape agent prompt w st)
    as (w' & st' & shown & tail & r & -> & Hshown & Htail & _).
  cbn [fst snd]. rewrite !count_calls_app.
  assert (Hs : forall p,
             (forall t, p (placeholder_markdown t) = false) ->
             count_calls p shown = 0).
  { intros p Hp. apply count_calls_none. intros ev Hin.
    destruct (Hshown ev Hin) as [t ->]. apply Hp. }
  rewrite !Hs by done.
  destruct Htail as [->|[->|[full ->]]]; unfold count_calls; simpl; lia.
Qed.

(** ** What the user saw and what is stored *)

(** X7: the handler ends on [st.rerun()] only when the stream has ended
    normally and [async_get_session] has returned.  The text committed
    as the assistant turn is then the text of the last placeholder call,
    the one rendered without the cursor: nothing is stored that was not
    shown.  The append of that turn is the last call the cycle logs;
    after it the handler overwrites the entry of the active session in
    the session list with the fetched snapshot, and changes nothing
    else. *)
Theorem committed_text_is_final_render {W} (agent : agent_engine W)
    prompt w st :
  let run := Streamlit.handle_prompt agent prompt (w, st) in
  let st' := snd (fst run) in
  let key := session_id st in
  let query := async_stream_query agent prompt (user_id st) key w in
  snd (snd run) = Rerun ->
  exists full snapshot,
    snd (Aggregator.stream_loop (snd query)) = Ok full /\
    snd (async_get_session agent key (user_id st) (fst query))
    = inr snapshot /\
    last (observer_calls (fst (snd run))) = Some full /\
    history st' key
    = history st key ++ [user_turn prompt; assistant_turn full] /\
    last (fst (snd run)) = Some (history_append key (assistant_turn full)) /\
    sessions st' = Streamlit.replace_session (sessions st) key snapshot /\
    session_id st' = key /\ user_id st' = user_id st /\
    forall k, k <> key -> messages st' !! k = messages st !! k.
Proof.
  intros run st' key query. subst run st' query key.
  rewrite handle_prompt_run.
  destruct (async_stream_query agent prompt (user_id st) (session_id st) w)
    as [w1 s].
  cbn [fst snd]. rewrite stream_loop_run.
  pose proof (chunks_loop_no_rerun (yielded s) "") as Hnorerun.
  destruct (Aggregator.chunks_loop (yielded s) "") as [l [full|e|]];
    simpl in Hnorerun; [|done..].
  destruct (ending s) as [e|]; [done|].
  destruct (async_get_session agent (session_id st) (user_id st) w1)
    as [w2 [e|updated]]; [done|].
  intros _. exists full, updated. cbn [fst snd].
  split; [done|]. split; [done|]. split; [|split; [|split; [|split]]].
  - rewrite !observer_calls_app. cbn [observer_calls omap list_omap app].
    rewrite app_nil_r, app_assoc. apply last_snoc.
  - unfold history at 1, committed. simpl. by rewrite lookup_insert_eq.
  - change [call_get_session (session_id st) (user_id st);
            history_append (session_id st) (assistant_turn full)]
      with ([call_get_session (session_id st) (user_id st)]
            ++ [history_append (session_id st) (assistant_turn full)]).
    rewrite !app_assoc. apply last_snoc.
  - done.
  - split; [done|]. split; [done|]. intros k Hk.
    unfold committed. simpl. by rewrite lookup_insert_ne.
Qed.

Lemma committed_text_is_final_render_witness :
  let run :=
    Streamlit.handle_prompt Scenario.engine "GOOGL"
      ([Scenario.googl_stream], Scenario.answered_once) in
  exists full snapshot,
    last (observer_calls (fst (snd run))) = Some full /\
    history (snd (fst run)) (Some "s1")
    = [user_turn "AAPL"; assistant_turn "Ticker AAPL";
       user_turn "GOOGL"; assistant_turn full] /\
    sessions (snd (fst run)) = [snapshot].
Proof.
  destruct (committed_text_is_final_render Scenario.engine "GOOGL"
              [Scenario.googl_stream] Scenario.answered_once eq_refl)
    as (full & snapshot & _ & _ & Hshown & Hstored & _ & Hsessions & _).
  exists full, snapshot.
  split; [exact Hshown|]. split; [exact Hstored|exact Hsessions].
Defined.

(** X8: when the stream has ended normally but [async_get_session]
    raises, the reply is lost: the exception reaches the caller, the
    full text was rendered but no assistant turn is appended, the
    session list is untouched and only the user turn is recorded. *)
Theorem reconciliation_failure_drops_reply {W} (agent : agent_engine W)
    prompt w st w1 s full w2 e :
  async_stream_query agent prompt (user_id st) (session_id st) w = (w1, s) ->
  snd (Aggregator.stream_loop s) = Ok full ->
  async_get_session agent (session_id st) (user_id st) w1 = (w2, inl e) ->
  let run := Streamlit.handle_prompt agent prompt (w, st) in
  snd (snd run) = Raise e /\
  last (observer_calls (fst (snd run))) = Some full /\
  last (fst (snd run))
  = Some (call_get_session (session_id st) (user_id st)) /\
  sessions (snd (fst run)) = sessions st /\
  history (snd (fst run)) (session_id st)
  = history st (session_id st) ++ [user_turn prompt].
Proof.
  intros Hquery Hloop Hget run. subst run.
  rewrite handle_prompt_run, Hquery.
  rewrite stream_loop_run in *.
  destruct (Aggregator.chunks_loop (yielded s) "") as [l [full'|e'|]];
    simpl in Hloop; [|done..].
  destruct (ending s) as [e'|]; simpl in Hloop; [done|].
  injection Hloop as ->. rewrite Hget. cbn [fst snd].
  split; [done|]. split; [|split; [|split; [done|]]].
  - rewrite !observer_calls_app. cbn [observer_calls omap list_omap app].
    rewrite app_nil_r, app_assoc. apply last_snoc.
  - rewrite !app_assoc. apply last_snoc.
  - unfold history at 1, with_user_turn. simpl.
    by rewrite lookup_insert_eq.
Qed.

Lemma reconciliation_failure_drops_reply_witness :
  let run :=
    Streamlit.handle_prompt
      (replay_engine (inr Scenario.s1) (inl (RemoteError "gone")))
      "GOOGL" ([Scenario.googl_stream], Scenario.active) in
  snd (snd run) = Raise (RemoteError "gone") /\
  history (snd (fst run)) (Some "s1") = [user_turn "GOOGL"].
Proof.
  destruct (reconciliation_failure_drops_reply
              (replay_engine (inr Scenario.s1) (inl (RemoteError "gone")))
              "GOOGL" [Scenario.googl_stream] Scenario.active []
              Scenario.googl_stream "Ticker GOOGL" []
              (RemoteError "gone") eq_refl eq_refl eq_refl)
    as (Hraise & _ & _ & _ & Hhist).
  split; [exact Hraise|exact Hhist].
Defined.

(** ** New sessions and the sidebar *)

(** X9: when [create_session] returns, the new session becomes the
    active one, is appended at the end of the session list and starts
    with an empty history, even if a history was stored under that id
    before; the histories under every other key are unchanged. *)
Theorem new_session_is_active_and_empty {W} (agent : agent_engine W)
    w st w1 obj :
  create_session agent (user_id st) w = (w1, inr obj) ->
  let run := Streamlit.create_new_session agent (w, st) in
  let st' := snd (fst run) in
  snd (snd run) = Ok tt /\
  session_id st' = Some (sess_id obj) /\
  sessions st' = sessions st ++ [obj] /\
  messages st' !! Some (sess_id obj) = Some [] /\
  (forall k, k <> Some (sess_id obj) ->
             messages st' !! k = messages st !! k) /\
  user_id st' = user_id st.
Proof.
  intros Hcreate run st'. subst run st'.
  rewrite create_new_session_run, Hcreate. cbn [fst snd].
  unfold with_new_session. cbn [session_id sessions messages user_id].
  repeat split; [apply lookup_insert_eq|].
  intros k Hk. by apply lookup_insert_ne.
Qed.

Lemma new_session_is_active_and_empty_witness :
  messages
    (snd (fst (Streamlit.create_new_session
                 (replay_engine (inr Scenario.s2) (inr Scenario.s2))
                 ([], Scenario.two_sessions))))
    !! Some "s2"
  = Some [].
Proof.
  exact (proj1 (proj2 (proj2 (proj2
           (new_session_is_active_and_empty
              (replay_engine (inr Scenario.s2) (inr Scenario.s2))
              [] Scenario.two_sessions [] Scenario.s2 eq_refl))))).
Defined.

(** X10: [index_of] finds the first option equal to the active id, and
    finds none exactly when no option equals it. *)
Theorem index_of_first sid (options : list string) :
  (forall i, Streamlit.index_of sid options = Some i ->
     exists o, options !! i = Some o /\ Some o = sid /\
               forall j o', j < i -> options !! j = Some o' ->
                            Some o' <> sid) /\
  (Streamlit.index_of sid options = None <->
   forall o, In o options -> Some o <> sid).
Proof.
  induction options as [|o options [IHsome IHnone]].
  - split; [done|]. split; [by intros _ o []|done].
  - cbn [Streamlit.index_of]. case_bool_decide as Ho.
    + split.
      * intros i [= <-]. exists o. split; [done|]. split; [done|]. lia.
      * split; [done|]. intros H. by destruct (H o (or_introl eq_refl)).
    + split.
      * intros i Hi.
        destruct (Streamlit.index_of sid options) as [i'|] eqn:Hi';
          [|done].
        simpl in Hi. injection Hi as <-.
        destruct (IHsome i' eq_refl) as (o1 & Ho1 & Hsid & Hfirst).
        exists o1. split; [done|]. split; [done|].
        intros [|j] o' Hj Ho'; simpl in Ho'; [by simplify_eq|].
        apply (Hfirst j o'); [lia|done].
      * destruct (Streamlit.index_of sid options) as [i'|] eqn:Hi'.
        -- split; [done|]. intros H.
           destruct IHnone as [_ IH]. discriminate IH.
           intros o' Ho'. apply H. by right.
        -- split; [|done]. intros _ o' [<-|Ho']; [done|].
           by apply (proj1 IHnone).
Qed.

Lemma index_of_first_witness :
  exists o, ["s1"; "s2"; "s2"] !! 1 = Some o /\ Some o = Some "s2" /\
            forall j o', j < 1 -> ["s1"; "s2"; "s2"] !! j = Some o' ->
                         Some o' <> Some "s2".
Proof.
  exact (proj1 (index_of_first (Some "s2") ["s1"; "s2"; "s2"]) 1 eq_refl).
Defined.

Lemma index_of_absent sid (options : list string) :
  (forall o, In o options -> Some o <> sid) ->
  Streamlit.index_of sid options = None.
Proof.
  induction options as [|o options IH]; intros Habs; [done|].
  cbn [Streamlit.index_of].
  rewrite bool_decide_false by (apply Habs; by left).
  rewrite IH; [done|]. intros o' Ho'. apply Habs. by right.
Qed.



(** X12: a run in which no session has to be created and no prompt is
    submitted does not contact the engine and touches neither the
    histories nor the session list: it either switches the active
    session and reruns, or changes nothing at all. *)
Theorem quiet_run {W} (agent : agent_engine W) wd w st :
  new_chat wd = false ->
  id_truthy (session_id st) = true ->
  chat_input wd = None \/ chat_input wd = Some "" ->
  let run := Streamlit.script agent wd (w, st) in
  fst (snd run) = [] /\ fst (fst run) = w /\
  messages (snd (fst run)) = messages st /\
  sessions (snd (fst run)) = sessions st /\
  match switches_to wd st with
  | Some selected =>
      session_id (snd (fst run)) = Some selected /\ snd (snd run) = Rerun
  | None => snd (fst run) = st /\ snd (snd run) = Ok tt
  end.
Proof.
  intros Hnew Hid Hinput run. subst run.
  rewrite script_cases, Hnew, Hid.
  destruct (switches_to wd st); [done|].
  by destruct Hinput as [->| ->].
Qed.

Lemma quiet_run_witness :
  Streamlit.script Scenario.engine no_input ([], Scenario.two_sessions)
  = (([], Scenario.two_sessions), ([], Ok tt)).
Proof.
  destruct (quiet_run Scenario.engine no_input [] Scenario.two_sessions
              eq_refl eq_refl (or_introl eq_refl))
    as (Hlog & Hw & _ & _ & Hst).
  change (switches_to no_input Scenario.two_sessions) with (@None string)
    in Hst.
  destruct Hst as [Hst Hr].
  destruct (Streamlit.script Scenario.engine no_input
              ([], Scenario.two_sessions)) as [[w' st'] [l r]].
  simpl in *. by subst.
Defined.

(** ** The two tabs after a cycle *)

Lemma find_session_absent ss sid :
  (forall s, In s ss -> Some (sess_id s) <> sid) ->
  find_session ss sid = None.
Proof.
  induction ss as [|s0 ss IH]; intros Habs; [done|]. simpl.
  rewrite bool_decide_false by (apply Habs; by left).
  apply IH. intros s Hs. apply Habs. by right.
Qed.

Lemma find_replace_hit ss sid u :
  (exists s, In s ss /\ Some (sess_id s) = sid) ->
  Some (sess_id u) = sid ->
  find_session (Streamlit.replace_session ss sid u) sid = Some u.
Proof.
  intros (s & Hin & Hs) Hu. induction ss as [|s0 ss IH]; [done|]. simpl.
  case_bool_decide as Hs0; simpl.
  - by rewrite bool_decide_true.
  - rewrite bool_decide_false by done. apply IH.
    destruct Hin as [->|Hin]; [done|exact Hin].
Qed.

Lemma find_replace_miss ss sid u :
  NoDup (map sess_id ss) ->
  Some (sess_id u) <> sid ->
  find_session (Streamlit.replace_session ss sid u) sid = None.
Proof.
  intros Hnodup Hu. induction ss as [|s0 ss IH]; [done|]. simpl.
  apply NoDup_cons in Hnodup as [Hnotin Hnodup].
  case_bool_decide as Hs0; simpl.
  - rewrite bool_decide_false by done. apply find_session_absent.
    intros s Hs Hid. apply Hnotin.
    apply list_elem_of_In, in_map_iff. exists s. split; [congruence|done].
  - rewrite bool_decide_false by done. by apply IH.
Qed.

Lemma replace_session_miss ss sid u :
  NoDup (map sess_id ss) ->
  Some (sess_id u) <> sid ->
  forall s, In s (Streamlit.replace_session ss sid u) ->
            Some (sess_id s) <> sid.
Proof.
  intros Hnodup Hu. induction ss as [|s0 ss IH]; [done|]. simpl.
  apply NoDup_cons in Hnodup as [Hnotin Hnodup].
  case_bool_decide as Hs0.
  - intros s [<-|Hs]; [done|]. intros Hid. apply Hnotin.
    apply list_elem_of_In, in_map_iff. exists s. split; [congruence|done].
  - intros s [<-|Hs]; [done|]. by apply IH.
Qed.

Lemma switches_to_listed wd st sid :
  session_selector wd = None ->
  session_id st = Some sid ->
  In sid (map sess_id (sessions st)) ->
  switches_to wd st = None.
Proof.
  intros Hsel Hsid Hin. unfold switches_to, selector_value. rewrite Hsel.
  destruct (index_of_nth sid _ Hin) as (i & Hi & Hnth).
  destruct (sessions st) as [|s0 rest]; [done|].
  rewrite Hsid, Hi. cbn [default from_option id]. rewrite Hnth.
  rewrite bool_decide_true by done. by rewrite andb_false_r.
Qed.

Lemma switches_to_unlisted wd st :
  session_selector wd = None ->
  (forall s, In s (sessions st) -> Some (sess_id s) <> session_id st) ->
  switches_to wd st
  = match sessions st with
    | [] => None
    | s0 :: _ => if str_truthy (sess_id s0) then Some (sess_id s0) else None
    end.
Proof.
  intros Hsel Habsent. unfold switches_to, selector_value. rewrite Hsel.
  destruct (sessions st) as [|s0 rest] eqn:Hss; [done|].
  rewrite index_of_absent.
  - cbn [default from_option id map nth].
    rewrite bool_decide_false; [by rewrite andb_true_r|].
    apply Habsent. by left.
  - intros o (s1 & <- & Hs1)%in_map_iff. by apply Habsent.
Qed.

(** X13: the run of a completed cycle stops at [st.rerun()] and fills
    no tab; the reply is shown by the next run.  When the active session
    is listed and the snapshot carries its id, that run, if the user
    does nothing, contacts nobody and changes nothing: the chat tab
    shows what it showed before the cycle followed by the prompt and the
    reply, the state tab shows the fetched snapshot.  When the ids of
    the list are distinct and the snapshot carries another id, the
    active session is no longer listed: the next run switches to the
    first session of the list and reruns, filling no tab; only when that
    first id is empty does it stay and show the warning. *)
Theorem tabs_after_completed_cycle {W} (agent : agent_engine W)
    wd prompt sid w st w1 s full w2 snapshot :
  new_chat wd = false ->
  switches_to wd st = None ->
  chat_input wd = Some prompt ->
  str_truthy prompt = true ->
  session_id st = Some sid ->
  str_truthy sid = true ->
  async_stream_query agent prompt (user_id st) (Some sid) w = (w1, s) ->
  snd (Aggregator.stream_loop s) = Ok full ->
  async_get_session agent (Some sid) (user_id st) w1 = (w2, inr snapshot) ->
  let cycle := Streamlit.script agent wd (w, st) in
  let next := Streamlit.script agent no_input (fst cycle) in
  let chat :=
    chat_tab st
      ++ [chat_bubble "user" prompt; chat_bubble "assistant" full] in
  let lost :=
    shown_tabs agent no_input (fst cycle)
    = Some (chat,
            [header "Current ADK Session State";
             warning "Could not find the selected session object."]) in
  snd (snd cycle) = Rerun /\
  shown_tabs agent wd (w, st) = None /\
  (In sid (map sess_id (sessions st)) ->
   sess_id snapshot = sid ->
   next = (fst cycle, ([], Ok tt)) /\
   shown_tabs agent no_input (fst cycle)
   = Some (chat, [header "Current ADK Session State"; json_view snapshot]))
  /\
  (NoDup (map sess_id (sessions st)) ->
   sess_id snapshot <> sid ->
   match sessions (snd (fst cycle)) with
   | first :: _ =>
       if str_truthy (sess_id first) then
         snd (snd next) = Rerun /\ fst (snd next) = [] /\
         session_id (snd (fst next)) = Some (sess_id first) /\
         Some (sess_id first) <> Some sid /\
         shown_tabs agent no_input (fst cycle) = None
       else lost
   | [] => lost
   end).
Proof.
  intros Hnew Hstay Hinput Hprompt Hsid Htruthy Hquery Hloop Hget
    cycle next chat lost.
  assert (Hcycle : exists log,
            cycle = ((w2, committed prompt full snapshot st), (log, Rerun))).
  { subst cycle. rewrite script_cases, Hnew, Hstay, Hsid. cbn [id_truthy].
    rewrite Htruthy, Hinput, Hprompt, handle_prompt_run, Hsid, Hquery.
    destruct (Aggregator.stream_loop s) as [l r]. simpl in Hloop. subst r.
    rewrite Hget. by eexists. }
  destruct Hcycle as [log Hcycle].
  assert (Htabs : shown_tabs agent wd (w, st) = None).
  { unfold shown_tabs. fold cycle. by rewrite Hcycle. }
  subst next lost. rewrite Hcycle. clear Hcycle cycle. cbn [fst snd].
  set (st1 := committed prompt full snapshot st).
  assert (Hid1 : session_id st1 = Some sid) by done.
  assert (Hchat : chat_tab st1 = chat).
  { subst chat. unfold chat_tab. rewrite Hid1, Hsid. cbn [id_truthy].
    rewrite Htruthy. unfold history at 1, st1, committed. simpl.
    rewrite Hsid, lookup_insert_eq. cbn [default from_option id].
    by rewrite map_app. }
  assert (Hquiet :
    switches_to no_input st1 = None ->
    Streamlit.script agent no_input (w2, st1) = ((w2, st1), ([], Ok tt))).
  { intros Hno. rewrite script_cases. cbn [new_chat no_input chat_input].
    rewrite Hno, Hid1. cbn [id_truthy]. by rewrite Htruthy. }
  split; [done|]. split; [exact Htabs|]. split.
  - intros Hlisted Hsnap.
    assert (Hno : switches_to no_input st1 = None).
    { apply (switches_to_listed _ _ sid); [done|done|].
      unfold st1, committed. cbn [sessions set_sessions set_messages].
      rewrite replace_session_ids by congruence. exact Hlisted. }
    split; [by apply Hquiet|].
    unfold shown_tabs. rewrite (Hquiet Hno). cbn [fst snd].
    rewrite Hchat. do 2 f_equal.
    unfold state_tab. rewrite Hid1. cbn [id_truthy]. rewrite Htruthy.
    unfold st1, committed. cbn [sessions set_sessions set_messages].
    rewrite Hsid, find_replace_hit; [done| |congruence].
    apply in_map_iff in Hlisted as (s0 & Hs0 & Hin).
    exists s0. split; [done|congruence].
  - intros Hnodup Hsnap.
    assert (Habsent : forall s0, In s0 (sessions st1) ->
                                 Some (sess_id s0) <> session_id st1).
    { rewrite Hid1. unfold st1, committed.
      cbn [sessions set_sessions set_messages]. rewrite Hsid.
      apply replace_session_miss; [done|congruence]. }
    pose proof (switches_to_unlisted no_input st1 eq_refl Habsent) as Hsw.
    assert (Hlost :
      switches_to no_input st1 = None ->
      shown_tabs agent no_input (w2, st1)
      = Some (chat,
              [header "Current ADK Session State";
               warning "Could not find the selected session object."])).
    { intros Hno. unfold shown_tabs. rewrite (Hquiet Hno). cbn [fst snd].
      rewrite Hchat. do 2 f_equal.
      unfold state_tab. rewrite Hid1. cbn [id_truthy]. rewrite Htruthy.
      rewrite find_session_absent; [done|]. by rewrite <- Hid1. }
    destruct (sessions st1) as [|first rest] eqn:Hss; [by apply Hlost|].
    destruct (str_truthy (sess_id first)); [|by apply Hlost].
    unfold shown_tabs. rewrite script_cases.
    cbn [new_chat no_input]. rewrite Hsw. cbn [fst snd].
    split; [done|]. split; [done|]. split; [done|]. split; [|done].
    rewrite <- Hid1. apply Habsent. by left.
Qed.

Lemma tabs_after_completed_cycle_witness :
  let cycle :=
    Streamlit.script Scenario.engine (Scenario.submit "GOOGL")
      ([Scenario.googl_stream], Scenario.answered_once) in
  shown_tabs Scenario.engine (Scenario.submit "GOOGL")
    ([Scenario.googl_stream], Scenario.answered_once) = None /\
  shown_tabs Scenario.engine no_input (fst cycle)
  = Some ([chat_bubble "user" "AAPL"; chat_bubble "assistant" "Ticker AAPL";
           chat_bubble "user" "GOOGL";
           chat_bubble "assistant" "Ticker GOOGL"],
          [header "Current ADK Session State";
           json_view Scenario.s1_after]).
Proof.
  destruct (tabs_after_completed_cycle Scenario.engine
              (Scenario.submit "GOOGL") "GOOGL" "s1"
              [Scenario.googl_stream] Scenario.answered_once []
              Scenario.googl_stream "Ticker GOOGL" [] Scenario.s1_after
              eq_refl eq_refl eq_refl eq_refl eq_refl eq_refl eq_refl
              eq_refl eq_refl)
    as (_ & Hnone & Hshown & _).
  split; [exact Hnone|].
  apply Hshown; [simpl; by left|reflexivity].
Defined.

(** ** The command-line entry points *)

Lemma stream_block_log s ev :
  In ev (fst (UseAgent.stream_block s)) ->
  (exists v, ev = stdout v) \/ (exists c e, ev = stdout_error c e).
Proof.
  destruct (events_loop_printing (yielded s)) as [Hshown Hnorerun].
  rewrite List.Forall_forall in Hshown. unfold UseAgent.stream_block.
  destruct (UseAgent.events_loop (yielded s)) as [l [[]|e|]];
    simpl in *; [| |done].
  - destruct (ending s) as [e|]; simpl; rewrite ?app_nil_r.
    + intros [H|[<-|[]]]%in_app_or; eauto.
    + intros [H|[<-|[]]]%in_app_or; eauto.
  - intros [H|[<-|[]]]%in_app_or; eauto.
Qed.

Lemma stream_block_returns s : snd (UseAgent.stream_block s) = Ok tt.
Proof.
  destruct (events_loop_printing (yielded s)) as [_ Hnorerun].
  unfold UseAgent.stream_block.
  destruct (UseAgent.events_loop (yielded s)) as [l [[]|e|]];
    simpl in *; [| |done]; [|done].
  by destruct (ending s).
Qed.

Lemma main_from_session_returns {W} (remote_agent : agent_engine W)
    user_id user_query w :
  snd (snd (UseAgent.main_from_session remote_agent user_id user_query w))
  = Ok tt.
Proof.
  unfold UseAgent.main_from_session.
  destruct (create_session remote_agent user_id w) as [w1 [e|session]];
    [done|].
  destruct (async_stream_query remote_agent user_query user_id
              (Some (sess_id session)) w1) as [w2 s].
  pose proof (stream_block_returns s) as Hok.
  by destruct (UseAgent.stream_block s) as [l r].
Qed.

(** X14: the engine name the clients connect to always starts with
    [projects/].  A name given in full is used as it is, a bare id is
    qualified with the project and the location, and resolving a
    resolved name again gives the same name whatever the configuration.
    Resolution fails exactly when the argument is missing, or when it is
    a bare id and no project is configured. *)
Theorem engine_name_resolution (argv : list string)
    (project_id location : option string) :
  (forall name,
      Cli.resolve_engine_name argv project_id location
      = Cli.resolved name ->
      String.prefix "projects/" name = true /\
      (forall a0 project_id' location',
          Cli.resolve_engine_name [a0; name] project_id' location'
          = Cli.resolved name) /\
      exists a0 given rest,
        argv = a0 :: given :: rest /\
        if String.prefix "projects/" given then name = given
        else name = "projects/" +:+ fmt project_id +:+ "/locations/"
                    +:+ fmt location +:+ "/reasoningEngines/" +:+ given) /\
  (Cli.resolve_engine_name argv project_id location = Cli.usage_error <->
   length argv < 2) /\
  (Cli.resolve_engine_name argv project_id location = Cli.project_error <->
   exists a0 given rest,
     argv = a0 :: given :: rest /\
     String.prefix "projects/" given = false /\
     opt_truthy project_id = false).
Proof.
  unfold Cli.resolve_engine_name.
  destruct argv as [|a0 [|given rest]].
  - split; [done|]. split; [split; [simpl; lia|done]|].
    split; [done|]. by intros (? & ? & ? & ? & _).
  - split; [done|]. split; [split; [simpl; lia|done]|].
    split; [done|]. by intros (? & ? & ? & ? & _).
  - destruct (String.prefix "projects/" given) eqn:Hprefix.
    + split.
      * intros name [= <-]. split; [done|]. split.
        -- intros. by rewrite Hprefix.
        -- exists a0, given, rest. by rewrite Hprefix.
      * split; [split; [done|simpl; lia]|].
        split; [done|]. intros (? & ? & ? & [= <- <- <-] & ? & _).
        congruence.
    + destruct (opt_truthy project_id) eqn:Hproject.
      * split.
        -- intros name [= <-].
           assert (Hp : String.prefix "projects/"
                          ("projects/" +:+ fmt project_id +:+ "/locations/"
                           +:+ fmt location +:+ "/reasoningEngines/"
                           +:+ given) = true)
             by apply str_prefix_app.
           split; [exact Hp|]. split.
           ++ intros. by rewrite Hp.
           ++ exists a0, given, rest. by rewrite Hprefix.
        -- split; [split; [done|simpl; lia]|].
           split; [done|]. intros (? & ? & ? & [= <- <- <-] & _ & ?).
           congruence.
      * split; [done|]. split; [split; [done|simpl; lia]|].
        split; [|done]. intros _. by exists a0, given, rest.
Qed.

Lemma engine_name_resolution_witness :
  String.prefix "projects/"
    "projects/p1/locations/us-central1/reasoningEngines/42" = true.
Proof.
  exact (proj1 (proj1 (engine_name_resolution
                         ["use_agent.py"; "42"] (Some "p1")
                         (Some "us-central1")) _ eq_refl)).
Defined.

(** X15: the streaming clients end in one of three ways.  They exit
    with status 1 exactly when no engine name could be resolved, before
    any remote call.  They die on an exception exactly when
    [vertexai.init], which is called outside every [try], raises: the
    exception is that of [vertexai.init], the call is the last thing
    done, and neither the engine lookup nor a session call is made.
    Otherwise they return: what the lookup, the session creation and the
    stream raise is caught.  When the lookup fails the error is the last
    thing printed and no session call is made; session calls only follow
    a successful initialisation and lookup. *)
Theorem client_main_endings {W} (agent_engines : platform W)
    user_query argv project_id location user_id_env uuid w :
  let run :=
    Cli.client_main agent_engines user_query argv project_id location
      user_id_env uuid w in
  let log := fst (snd run) in
  let ends := snd (snd run) in
  let resolution := Cli.resolve_engine_name argv project_id location in
  let initialised := sdk_init agent_engines project_id location None in
  (ends = exited 1 <-> forall name, resolution <> Cli.resolved name) /\
  (ends = exited 1 -> fst run = w /\ silent log = true) /\
  (forall e,
      ends = uncaught e <->
      (exists name, resolution = Cli.resolved name) /\ initialised = inl e) /\
  (forall e,
      ends = uncaught e ->
      fst run = w /\
      last log = Some (vertexai_init project_id location None) /\
      (forall name, ~ In (engines_get_call name) log) /\
      (forall ev, ~ In (session_log ev) log)) /\
  (ends = returned <->
   (exists name, resolution = Cli.resolved name) /\
   exists u, initialised = inr u) /\
  (forall name w1 e,
      resolution = Cli.resolved name ->
      initialised = inr tt ->
      engines_get agent_engines name w = (w1, inl e) ->
      last log = Some (print_exn "Error connecting to agent: " e) /\
      forall ev, ~ In (session_log ev) log) /\
  (forall ev,
      In (session_log ev) log ->
      exists name w1 resource_name remote_agent,
        resolution = Cli.resolved name /\
        initialised = inr tt /\
        engines_get agent_engines name w
        = (w1, inr (resource_name, remote_agent))).
Proof.
  intros run log ends resolution initialised.
  subst run log ends resolution initialised. unfold Cli.client_main.
  destruct (Cli.resolve_engine_name argv project_id location)
    as [| |name] eqn:Hres.
  - cbn [fst snd].
    split; [done|]. split; [done|].
    split; [intros e; split; [done|by intros [[? ?] _]]|].
    split; [done|].
    split; [split; [done|by intros [[? ?] _]]|].
    split; [done|]. intros ev [H|[H|[]]]; discriminate H.
  - cbn [fst snd].
    split; [done|]. split; [done|].
    split; [intros e; split; [done|by intros [[? ?] _]]|].
    split; [done|].
    split; [split; [done|by intros [[? ?] _]]|].
    split; [done|]. intros ev [H|[]]; discriminate H.
  - assert (Hexit : forall f : finish,
              f <> exited 1 ->
              f = exited 1 <->
              forall name0, Cli.resolved name <> Cli.resolved name0).
    { intros f Hf. split; [done|]. intros H. by destruct (H name). }
    destruct (sdk_init agent_engines project_id location None)
      as [e0|[]] eqn:Hinit.
    { cbn [fst snd].
      split; [by apply Hexit|]. split; [done|].
      split; [intros e; split;
                [intros [= <-]; by split; [exists name|]
                |by intros [_ [= <-]]]|].
      split.
      { intros e _. split; [done|]. split; [done|].
        split; intros ? [H|[H|[H|[]]]]; discriminate H. }
      split; [split; [done|by intros [_ [? ?]]]|].
      split; [done|]. intros ev [H|[H|[H|[]]]]; discriminate H. }
    destruct (engines_get agent_engines name w)
      as [w1 [e|[resource_name remote_agent]]] eqn:Hget.
    + cbn [fst snd].
      split; [by apply Hexit|]. split; [done|].
      split; [intros e'; split; [done|by intros [_ ?]]|].
      split; [done|].
      split; [split; [intros _; split; [by exists name|by exists tt]
                     |done]|].
      split.
      * intros name' w1' e' [= <-] _ Hget'. rewrite Hget in Hget'.
        injection Hget' as <- <-. split; [done|].
        intros ev [H|[H|[H|[H|[H|[]]]]]]; discriminate H.
      * intros ev [H|[H|[H|[H|[H|[]]]]]]; discriminate H.
    + pose proof (main_from_session_returns remote_agent
                    (py_or user_id_env
                       ("demo_user_" +:+ String.substring 0 4 uuid))
                    user_query w1) as Hok.
      destruct (UseAgent.main_from_session remote_agent _ user_query w1)
        as [w2 [l r]]. simpl in Hok. subst r. cbn [fst snd finish_of].
      split; [by apply Hexit|]. split; [done|].
      split; [intros e'; split; [done|by intros [_ ?]]|].
      split; [done|].
      split; [split; [intros _; split; [by exists name|by exists tt]
                     |done]|].
      split.
      { intros name' w1' e' [= <-] _ Hget'. rewrite Hget in Hget'.
        discriminate Hget'. }
      intros ev _. by exists name, w1, resource_name, remote_agent.
Qed.

Lemma client_main_endings_witness :
  (let run :=
     Cli.client_main
       (fixed_platform (inl (ValueError "Unsupported region for Vertex AI"))
          (inl (RemoteError "unreachable")) (inl TypeError) (inl TypeError))
       "GOOGL" ["test_deployment.py"; "42"] (Some "p1") (Some "mars")
       None "abcdef" [] in
   snd (snd run) = uncaught (ValueError "Unsupported region for Vertex AI")
   /\
   last (fst (snd run)) = Some (vertexai_init (Some "p1") (Some "mars") None))
  /\
  last (fst (snd (Cli.client_main
                    (fixed_platform (inr tt)
                       (inl (RemoteError "unreachable"))
                       (inl TypeError) (inl TypeError))
                    "GOOGL" ["use_agent.py"; "projects/p/x"]
                    None None None "abcdef" [])))
  = Some (print_exn "Error connecting to agent: "
            (RemoteError "unreachable")).
Proof.
  split.
  - destruct (client_main_endings
                (fixed_platform
                   (inl (ValueError "Unsupported region for Vertex AI"))
                   (inl (RemoteError "unreachable")) (inl TypeError)
                   (inl TypeError))
                "GOOGL" ["test_deployment.py"; "42"] (Some "p1")
                (Some "mars") None "abcdef" [])
      as (_ & _ & Hiff & Hdies & _).
    assert (Hends : snd (snd (Cli.client_main
                (fixed_platform
                   (inl (ValueError "Unsupported region for Vertex AI"))
                   (inl (RemoteError "unreachable")) (inl TypeError)
                   (inl TypeError))
                "GOOGL" ["test_deployment.py"; "42"] (Some "p1")
                (Some "mars") None "abcdef" []))
              = uncaught (ValueError "Unsupported region for Vertex AI")).
    { apply Hiff. split; [by eexists|reflexivity]. }
    split; [exact Hends|]. exact (proj1 (proj2 (Hdies _ Hends))).
  - exact (proj1 (proj1 (proj2 (proj2 (proj2 (proj2 (proj2
             (client_main_endings
                (fixed_platform (inr tt) (inl (RemoteError "unreachable"))
                   (inl TypeError) (inl TypeError))
                "GOOGL" ["use_agent.py"; "projects/p/x"]
                None None None "abcdef" []))))))
             "projects/p/x" [] (RemoteError "unreachable")
             eq_refl eq_refl eq_refl)).
Defined.

(** X16: with a bare engine id and no location configured,
    [use_agent.main] falls back to [us-central1], while
    [test_deployment.main] formats the missing value into the name and
    passes it on to [vertexai.init] as it is.  Both announce the name
    they resolved, call [vertexai.init], and look that name up exactly
    when [vertexai.init] returned. *)
Theorem missing_location {W} (agent_engines : platform W)
    a0 given rest project location user_id_env uuid w :
  String.prefix "projects/" given = false ->
  str_truthy project = true ->
  opt_truthy location = false ->
  let used :=
    fst (snd (Cli.use_agent_main agent_engines (a0 :: given :: rest)
                (Some project) location user_id_env uuid w)) in
  let tested :=
    fst (snd (Cli.test_deployment_main agent_engines
                (a0 :: given :: rest) (Some project) location
                user_id_env uuid w)) in
  let used_name :=
    "projects/" +:+ project
    +:+ "/locations/us-central1/reasoningEngines/" +:+ given in
  let tested_name :=
    "projects/" +:+ project +:+ "/locations/" +:+ fmt location
    +:+ "/reasoningEngines/" +:+ given in
  In (print ("Connecting to Agent Engine: " +:+ used_name)) used /\
  In (vertexai_init (Some project) (Some "us-central1") None) used /\
  (forall name,
      In (engines_get_call name) used <->
      name = used_name /\
      exists u, sdk_init agent_engines (Some project) (Some "us-central1")
                  None = inr u) /\
  In (print ("Connecting to Agent Engine: " +:+ tested_name)) tested /\
  In (vertexai_init (Some project) location None) tested /\
  (forall name,
      In (engines_get_call name) tested <->
      name = tested_name /\
      exists u, sdk_init agent_engines (Some project) location None
                = inr u).
Proof.
  intros Hbare Hproject Hloc used tested used_name tested_name.
  subst used tested used_name tested_name.
  assert (Hdefault : py_or location "us-central1" = "us-central1").
  { destruct location as [loc|]; [|done]. simpl in *. by rewrite Hloc. }
  assert (Hmain : forall user_query loc name,
    Cli.resolve_engine_name (a0 :: given :: rest) (Some project) loc
    = Cli.resolved name ->
    let log :=
      fst (snd (Cli.client_main agent_engines user_query
                  (a0 :: given :: rest) (Some project) loc user_id_env
                  uuid w)) in
    In (print ("Connecting to Agent Engine: " +:+ name)) log /\
    In (vertexai_init (Some project) loc None) log /\
    (forall name',
        In (engines_get_call name') log <->
        name' = name /\
        exists u, sdk_init agent_engines (Some project) loc None = inr u)).
  { intros user_query loc name Hres. unfold Cli.client_main.
    rewrite Hres. unfold Cli.connecting.
    destruct (sdk_init agent_engines (Some project) loc None)
      as [e|[]] eqn:Hinit.
    { cbn [fst snd]. split; [by left|]. split; [simpl; tauto|].
      intros name'. split.
      - intros [H|[H|[H|[]]]]; discriminate H.
      - by intros [_ [? ?]]. }
    assert (Hsession : forall l : list event,
              ~ In (engines_get_call name) (map session_log l))
      by (intros l (? & ? & _)%in_map_iff; done).
    destruct (engines_get agent_engines name w)
      as [w1 [e|[rn agent]]].
    - cbn [fst snd]. split; [by left|]. split; [simpl; tauto|].
      intros name'. split.
      + intros [H|[H|[H|[H|[H|[]]]]]]; try discriminate H.
        injection H as <-. split; [done|by exists tt].
      + intros [-> _]. simpl. tauto.
    - destruct (UseAgent.main_from_session agent _ _ w1) as [w2 [l r]].
      cbn [fst snd]. split; [by left|]. split; [simpl; tauto|].
      intros name'. split.
      + intros [H|[H|[H|[H|[H|H]]]]]; try discriminate H.
        * injection H as <-. split; [done|by exists tt].
        * by apply in_map_iff in H as (? & ? & _).
      + intros [-> _]. simpl. tauto. }
  unfold Cli.use_agent_main, Cli.test_deployment_main.
  rewrite Hdefault.
  assert (Hres : forall loc,
    Cli.resolve_engine_name (a0 :: given :: rest) (Some project) loc
    = Cli.resolved ("projects/" +:+ project +:+ "/locations/" +:+ fmt loc
                    +:+ "/reasoningEngines/" +:+ given)).
  { intros loc. unfold Cli.resolve_engine_name. rewrite Hbare.
    cbn [opt_truthy]. by rewrite Hproject. }
  destruct (Hmain "I want to invest in tech stocks. Can you suggest a strategy for a 10-year horizon with moderate risk?"
              (Some "us-central1") _ (Hres (Some "us-central1")))
    as (Hu1 & Hu2 & Hu3).
  destruct (Hmain "GOOGL" location _ (Hres location)) as (Ht1 & Ht2 & Ht3).
  split; [exact Hu1|]. split; [exact Hu2|]. split; [exact Hu3|].
  split; [exact Ht1|]. split; [exact Ht2|exact Ht3].
Qed.

Lemma missing_location_witness :
  In (engines_get_call "projects/p1/locations/None/reasoningEngines/42")
     (fst (snd (Cli.test_deployment_main
                  (fixed_platform (inr tt) (inl (RemoteError "unreachable"))
                     (inl TypeError) (inl TypeError))
                  ["test_deployment.py"; "42"] (Some "p1") None None
                  "abcdef" []))).
Proof.
  apply (proj2 (proj2 (proj2 (proj2 (proj2
           (missing_location
              (fixed_platform (inr tt) (inl (RemoteError "unreachable"))
                 (inl TypeError) (inl TypeError))
              "test_deployment.py" "42" [] "p1" None None "abcdef" []
              eq_refl eq_refl eq_refl)))))).
  split; [reflexivity|by exists tt].
Defined.

(** X17: [deploy.main] echoes the configuration, then checks the
    project, the location and the bucket in that order: the first one
    that is missing or empty is the one it reports, and it returns
    without any call to the platform.  Only when all three are set does
    it call [vertexai.init], with staging bucket [gs://<bucket>], and
    then create the engine.  Neither call is guarded: when
    [vertexai.init] raises nothing is created, and what it or the
    creation raises ends the command. *)
Theorem deploy_guard {W} (agent_engines : platform W)
    agent_name project_id location bucket w :
  let run :=
    Cli.deploy_main agent_engines agent_name project_id location bucket w in
  let log := fst (snd run) in
  let ends := snd (snd run) in
  let missing var :=
    fst run = w /\ ends = returned /\ silent log = true /\
    log = Cli.echo_config project_id location bucket
          ++ [print ("Missing required environment variable: " +:+ var)] in
  (opt_truthy project_id = false -> missing "GOOGLE_CLOUD_PROJECT") /\
  (opt_truthy project_id = true -> opt_truthy location = false ->
   missing "GOOGLE_CLOUD_LOCATION") /\
  (opt_truthy project_id = true -> opt_truthy location = true ->
   opt_truthy bucket = false ->
   missing "GOOGLE_CLOUD_STORAGE_BUCKET") /\
  (silent log = false <->
   opt_truthy project_id && opt_truthy location && opt_truthy bucket
   = true) /\
  (forall b,
      opt_truthy project_id = true -> opt_truthy location = true ->
      bucket = Some b -> str_truthy b = true ->
      let staging_bucket := Some ("gs://" +:+ b) in
      nth_error log 3
      = Some (vertexai_init project_id location staging_bucket) /\
      match sdk_init agent_engines project_id location staging_bucket with
      | inl e =>
          fst run = w /\ ends = uncaught e /\
          last log
          = Some (vertexai_init project_id location staging_bucket) /\
          forall name, ~ In (engines_create_call name) log
      | inr _ =>
          In (engines_create_call agent_name) log /\
          match engines_create agent_engines agent_name w with
          | (w1, inl e) =>
              fst run = w1 /\ ends = uncaught e /\
              last log = Some (engines_create_call agent_name)
          | (w1, inr resource_name) =>
              fst run = w1 /\ ends = returned /\
              last log
              = Some (print ("Successfully created remote agent: "
                             +:+ resource_name))
          end
      end).
Proof.
  intros run log ends missing. subst run log ends missing.
  unfold Cli.deploy_main, Cli.deploy_create, Cli.echo_config.
  destruct (opt_truthy project_id) eqn:Hp; cbn [negb andb].
  2:{ cbn [fst snd]. split; [by intros; repeat split|].
      split; [done|]. split; [done|]. split; [by split|]. done. }
  destruct (opt_truthy location) eqn:Hl; cbn [negb andb].
  2:{ cbn [fst snd]. split; [done|]. split; [by intros; repeat split|].
      split; [done|]. split; [by split|]. done. }
  destruct (opt_truthy bucket) eqn:Hb; cbn [negb andb].
  2:{ cbn [fst snd]. split; [done|]. split; [done|].
      split; [by intros; repeat split|]. split; [by split|].
      intros b _ _ -> Hb'. simpl in Hb. congruence. }
  split; [done|]. split; [done|]. split; [done|].
  destruct bucket as [b|]; [|done]. cbn [fmt].
  destruct (sdk_init agent_engines project_id location
              (Some ("gs://" +:+ b))) as [e|[]] eqn:Hinit.
  - cbn [fst snd]. split; [by split|].
    intros b' _ _ [= <-] _. cbn zeta. rewrite Hinit.
    split; [done|]. split; [done|]. split; [done|]. split; [done|].
    intros name [H|[H|[H|[H|[]]]]]; discriminate H.
  - destruct (engines_create agent_engines agent_name w)
      as [w1 [e|resource_name]] eqn:Hcreate; cbn [fst snd].
    + split; [by split|].
      intros b' _ _ [= <-] _. cbn zeta. rewrite Hinit.
      split; [done|]. split; [simpl; tauto|]. done.
    + split; [by split|].
      intros b' _ _ [= <-] _. cbn zeta. rewrite Hinit.
      split; [done|]. split; [simpl; tauto|]. done.
Qed.

Lemma deploy_guard_witness :
  (let run :=
     Cli.deploy_main
       (fixed_platform (inr tt) (inl TypeError)
          (inr "projects/p/engines/1") (inl TypeError))
       "financial_coordinator" (Some "p") (Some "") None [] in
   snd (snd run) = returned /\
   last (fst (snd run))
   = Some (print "Missing required environment variable: GOOGLE_CLOUD_LOCATION"))
  /\
  (let run :=
     Cli.deploy_main
       (fixed_platform (inr tt) (inl TypeError)
          (inr "projects/p/engines/1") (inl TypeError))
       "financial_coordinator" (Some "p") (Some "us-central1")
       (Some "bkt") [] in
   nth_error (fst (snd run)) 3
   = Some (vertexai_init (Some "p") (Some "us-central1")
             (Some "gs://bkt"))).
Proof.
  split.
  - destruct (proj1 (proj2 (deploy_guard
                 (fixed_platform (inr tt) (inl TypeError)
                    (inr "projects/p/engines/1") (inl TypeError))
                 "financial_coordinator" (Some "p") (Some "") None []))
                eq_refl eq_refl) as (_ & Hends & _ & Hlog).
    split; [exact Hends|]. cbv zeta. rewrite Hlog. reflexivity.
  - exact (proj1 (proj2 (proj2 (proj2 (proj2 (deploy_guard
             (fixed_platform (inr tt) (inl TypeError)
                (inr "projects/p/engines/1") (inl TypeError))
             "financial_coordinator" (Some "p") (Some "us-central1")
             (Some "bkt") [])))) "bkt" eq_refl eq_refl eq_refl eq_refl)).
Defined.

(** X18: [update.main] checks for an engine name and nothing else.
    Without one it prints the usage line and exits with status 1 before
    any call to the platform.  With one it calls [vertexai.init] with
    the configuration as it is, no variable being checked and a missing
    bucket being formatted into the staging bucket, and then updates the
    engine of exactly that name.  Neither call is guarded: when
    [vertexai.init] raises no update is issued, and what it or the
    update raises ends the command. *)
Theorem update_needs_only_a_name {W} (agent_engines : platform W)
    agent_name argv project_id location bucket w :
  let run :=
    Cli.update_main agent_engines agent_name argv project_id location
      bucket w in
  let log := fst (snd run) in
  let ends := snd (snd run) in
  let staging_bucket := Some ("gs://" +:+ fmt bucket) in
  (length argv < 2 ->
   fst run = w /\ ends = exited 1 /\
   log = [print "Usage: python update.py <AGENT_ENGINE_RESOURCE_ID>"]) /\
  (forall a0 engine_name rest,
      argv = a0 :: engine_name :: rest ->
      head log = Some (vertexai_init project_id location staging_bucket) /\
      match sdk_init agent_engines project_id location staging_bucket with
      | inl e =>
          fst run = w /\ ends = uncaught e /\
          log = [vertexai_init project_id location staging_bucket]
      | inr _ =>
          (forall name,
              In (engines_update_call name) log <-> name = engine_name) /\
          match engines_update agent_engines engine_name w with
          | (w1, inl e) =>
              fst run = w1 /\ ends = uncaught e /\
              last log = Some (engines_update_call engine_name)
          | (w1, inr resource_name) =>
              fst run = w1 /\ ends = returned /\
              last log
              = Some (print ("Successfully updated remote agent: "
                             +:+ resource_name))
          end
      end).
Proof.
  intros run log ends staging_bucket. subst run log ends staging_bucket.
  unfold Cli.update_main, Cli.update_update.
  destruct argv as [|a0 [|engine_name rest]].
  - split; [done|]. by intros.
  - split; [done|]. by intros.
  - split; [simpl; lia|]. intros a0' e' rest' [= <- <- <-].
    destruct (sdk_init agent_engines project_id location
                (Some ("gs://" +:+ fmt bucket))) as [e|[]]; [done|].
    destruct (engines_update agent_engines engine_name w)
      as [w1 [e|resource_name]]; cbn [fst snd].
    + split; [done|]. split; [|done]. intros name. split.
      * intros [H|[H|[H|[]]]]; try discriminate H. by injection H.
      * intros ->. simpl. tauto.
    + split; [done|]. split; [|done]. intros name. split.
      * intros [H|[H|[H|[H|[]]]]]; try discriminate H. by injection H.
      * intros ->. simpl. tauto.
Qed.

Lemma update_needs_only_a_name_witness :
  (let run :=
     Cli.update_main
       (fixed_platform (inr tt) (inl TypeError) (inl TypeError)
          (inr "projects/p/engines/1"))
       "financial_coordinator" ["update.py"] (Some "p") None None [] in
   snd (snd run) = exited 1 /\
   fst (snd run)
   = [print "Usage: python update.py <AGENT_ENGINE_RESOURCE_ID>"]) /\
  head (fst (snd (Cli.update_main
                    (fixed_platform (inr tt) (inl TypeError) (inl TypeError)
                       (inr "projects/p/engines/1"))
                    "financial_coordinator" ["update.py"; "42"]
                    None None None [])))
  = Some (vertexai_init None None (Some "gs://None")).
Proof.
  split.
  - destruct (proj1 (update_needs_only_a_name
                (fixed_platform (inr tt) (inl TypeError) (inl TypeError)
                   (inr "projects/p/engines/1"))
                "financial_coordinator" ["update.py"] (Some "p") None
                None []) ltac:(simpl; lia)) as (_ & Hends & Hlog).
    split; [exact Hends|exact Hlog].
  - exact (proj1 (proj2 (update_needs_only_a_name
                           (fixed_platform (inr tt) (inl TypeError)
                              (inl TypeError) (inr "projects/p/engines/1"))
                           "financial_coordinator" ["update.py"; "42"]
                           None None None [])
                    "update.py" "42" [] eq_refl)).
Defined.

(** X19: the command-line client creates one session, asks one stream
    query for that session and the given user, and never calls
    [async_get_session]; when the creation fails it asks nothing more.
    It returns normally in every case. *)
Theorem cli_session_flow {W} (remote_agent : agent_engine W)
    user_id user_query w :
  let run := UseAgent.main_from_session remote_agent user_id user_query w in
  let log := fst (snd run) in
  snd (snd run) = Ok tt /\
  count_calls is_create_call log = 1 /\
  count_calls is_get_call log = 0 /\
  match create_session remote_agent user_id w with
  | (_, inl e) =>
      count_calls is_stream_call log = 0 /\
      last log = Some (stdout_error "Error creating session: " e)
  | (_, inr session) =>
      count_calls is_stream_call log = 1 /\
      In (call_stream_query user_query user_id (Some (sess_id session))) log
  end.
Proof.
  intros run log. subst run log.
  split; [apply main_from_session_returns|].
  unfold UseAgent.main_from_session.
  destruct (create_session remote_agent user_id w) as [w1 [e|session]];
    [done|].
  destruct (async_stream_query remote_agent user_query user_id
              (Some (sess_id session)) w1) as [w2 s].
  assert (Hnone : forall p,
            (forall v, p (stdout v) = false) ->
            (forall c e, p (stdout_error c e) = false) ->
            count_calls p (fst (UseAgent.stream_block s)) = 0).
  { intros p Hp He. apply count_calls_none. intros ev Hin.
    destruct (stream_block_log s ev Hin) as [[v ->]|(c & e & ->)]; auto. }
  destruct (UseAgent.stream_block s) as [l r]. cbn [fst snd] in *.
  change (call_create_session user_id :: ?a :: ?b :: ?c :: ?d :: l)
    with ([call_create_session user_id; a; b; c; d] ++ l).
  rewrite !count_calls_app, !Hnone by done.
  repeat split. simpl. tauto.
Qed.
